(** * unreal-mcp: the MCP tool handlers as Rocq functions

    The repository holds two versions of one stdio MCP server that proxies
    tool calls to Unreal Engine's Web Remote Control HTTP API:

    - [src/index.ts] (server version 0.1.0), HTTP only;
    - the second source file (server version 0.2.0), which adds
      [sshRead] and [execPythonWithOutput]: Python is run inside the
      editor through a harness that writes its result to a fixed file,
      and the file is read back over ssh.

    The functions [ue], [ok], [err] and the handlers [ue_get_property],
    [ue_set_property], [ue_call_function], [ue_exec_console], [ue_batch]
    and [ue_remote_info] are the same text in both files and are embedded
    once.  Of the four handlers that differ ([ue_describe_object],
    [ue_search_assets], [ue_list_actors], [ue_exec_python]) the main
    development has the 0.2.0 text and the module [V010] the 0.1.0 text.

    JavaScript strings are sequences of UTF-16 code units, numbers are
    binary64 floats, and [await]ed calls run one after the other; the
    handlers are written in a monad that threads the log of I/O
    interactions and carries the thrown [Error], if any. *)

From Stdlib Require Import List NArith ZArith Bool String Ascii.
From Stdlib Require Import Floats Uint63 DecimalString Lia.
Import ListNotations.

Set Warnings "-register-all".

(* ================================================================== *)
(** ** Strings *)

(** A JavaScript string: its UTF-16 code units. *)
Definition jsstring := list N.

(** An ASCII literal of the source as a [jsstring]. *)
Definition str (s : string) : jsstring :=
  map N_of_ascii (list_ascii_of_string s).
Arguments str s%_string.

Definition dquote : jsstring := [34%N].
Definition newline : jsstring := [10%N].
(** U+2192, the arrow of the message built by [ue]. *)
Definition rightwards_arrow : jsstring := [8594%N].

Definition is_empty (s : jsstring) : bool :=
  match s with [] => true | _ :: _ => false end.

Fixpoint jsstring_eqb (a b : jsstring) : bool :=
  match a, b with
  | [], [] => true
  | x :: a', y :: b' => N.eqb x y && jsstring_eqb a' b'
  | _, _ => false
  end.

(** [s.slice(0, n)] *)
Definition slice0 (n : nat) (s : jsstring) : jsstring := firstn n s.

(** [s.replace(/c/g, d)] for single code units [c] and [d]. *)
Definition replace_all (c d : N) (s : jsstring) : jsstring :=
  map (fun x => if N.eqb x c then d else x) s.

(** WhiteSpace and LineTerminator code units, as [String.prototype.trim]
    strips them. *)
Definition is_white_space (c : N) : bool :=
  existsb (N.eqb c)
    [9; 10; 11; 12; 13; 32; 160; 5760; 8232; 8233; 8239; 8287; 12288; 65279]%N
  || (N.leb 8192 c && N.leb c 8202).

Fixpoint trim_start (s : jsstring) : jsstring :=
  match s with
  | c :: r => if is_white_space c then trim_start r else s
  | [] => []
  end.

Definition trim (s : jsstring) : jsstring :=
  rev (trim_start (rev (trim_start s))).

(** [s.split(sep)] for a single code unit [sep]. *)
Fixpoint split (sep : N) (s : jsstring) : list jsstring :=
  match s with
  | [] => [[]]
  | c :: r =>
      if N.eqb c sep then [] :: split sep r
      else match split sep r with
           | h :: t => (c :: h) :: t
           | [] => [[c]]
           end
  end.

(** Decimal digits of a non-negative integer: what a template literal
    prints for an integral number such as [resp.status]. *)
Definition N_toString (n : N) : jsstring :=
  str (NilZero.string_of_uint (N.to_uint n)).

(* ================================================================== *)
(** ** Values *)

Inductive JSValue : Type :=
| JUndefined
| JNull
| JBool (b : bool)
| JNumber (x : float)
| JString (s : jsstring)
| JArray (xs : list JSValue)
| JObject (props : list (jsstring * JSValue)).

(** A thrown [Error] instance; the handlers only ever read [message]. *)
Record Exn : Type := new_Error { message : jsstring }.

Definition number_of_nat (n : nat) : float :=
  PrimFloat.of_uint63 (Uint63.of_Z (Z.of_nat n)).

(** ToBoolean *)
Definition truthy (v : JSValue) : bool :=
  match v with
  | JUndefined | JNull => false
  | JBool b => b
  | JNumber x => negb (PrimFloat.eqb x 0%float || PrimFloat.is_nan x)
  | JString s => negb (is_empty s)
  | JArray _ | JObject _ => true
  end.

(** [a ?? b] *)
Definition nullish_or (a b : JSValue) : JSValue :=
  match a with
  | JUndefined | JNull => b
  | _ => a
  end.

(** [a || b] *)
Definition or_else (a b : JSValue) : JSValue :=
  if truthy a then a else b.

(** The own property [k] of an object given by its entries. *)
Fixpoint lookup (k : jsstring) (ps : list (jsstring * JSValue)) : JSValue :=
  match ps with
  | [] => JUndefined
  | (k', v) :: r => if jsstring_eqb k k' then v else lookup k r
  end.

(* ================================================================== *)
(** ** The JavaScript runtime

    [JSON.parse], [JSON.stringify], [parseInt], number printing and the
    messages of the engine's own [TypeError]s are builtins of the
    platform, not code of the repository: the handlers are embedded over
    an arbitrary [Platform]. *)

Record Platform : Type := {
  (** [JSON.parse(text)]: the value, or the [SyntaxError] thrown. *)
  JSON_parse : jsstring -> Exn + JSValue;
  (** [JSON.stringify(v, null, space)]; [JSON.stringify(v)] is space 0. *)
  JSON_stringify : JSValue -> N -> jsstring;
  (** [parseInt(s, 10)] *)
  parseInt10 : jsstring -> float;
  (** Number::toString *)
  Number_toString : float -> jsstring;
  (** ToString of an array or object: the string, or the [TypeError]
      of a value with no primitive conversion. *)
  Object_toString : JSValue -> Exn + jsstring;
  (** The [TypeError] of reading property [k] of [undefined] or [null]. *)
  cannot_read_property : JSValue -> jsstring -> Exn;
  (** The [TypeError] of calling [callee], such as [props.map], where
      it is not a function. *)
  is_not_a_function : jsstring -> Exn
}.

(** What ECMAScript fixes about [JSON.parse] and the handlers rely on:
    the empty text is not JSON. *)
Definition JSON_parse_rejects_empty (P : Platform) : Prop :=
  exists e, JSON_parse P [] = inl e.

(* ================================================================== *)
(** ** I/O: requests, responses, the interaction log *)

Record Request : Type := {
  url : jsstring;
  method : jsstring;
  headers : list (jsstring * jsstring);
  body : option jsstring
}.

(** A response as [ue] observes it: [resp.status] and the outcome of
    [await resp.text()]. *)
Record Response : Type := {
  status : N;
  resp_text : Exn + jsstring
}.

(** [resp.ok]: the status is in the range 200-299. *)
Definition resp_ok (r : Response) : bool :=
  N.leb 200 (status r) && N.leb (status r) 299.

(** One interaction with the outside, with its outcome. *)
Inductive Event : Type :=
| EvFetch (req : Request) (outcome : Exn + Response)
| EvTimeout (ms : N)
| EvExecSync (cmd : jsstring) (timeout : N) (outcome : Exn + jsstring).

(** The outside world: what [fetch] and [child_process.execSync] answer,
    given everything that happened before. *)
Record World : Type := {
  fetch : list Event -> Request -> Exn + Response;
  execSync : list Event -> jsstring -> N -> Exn + jsstring
}.

(** [process.env] as the configuration block reads it. *)
Record ProcessEnv : Type := {
  env_UE_HOST : option jsstring;
  env_UE_PORT : option jsstring;
  env_UE_SSH_USER : option jsstring
}.

(* ================================================================== *)
(** ** The monad of handlers *)

(** A computation reads the log so far and returns a value or the thrown
    error, with the log extended by what it did. *)
Definition M (A : Type) : Type := list Event -> (Exn + A) * list Event.

Definition ret {A} (a : A) : M A := fun log => (inr a, log).

Definition throw {A} (e : Exn) : M A := fun log => (inl e, log).

Definition bind {A B} (m : M A) (k : A -> M B) : M B :=
  fun log =>
    match m log with
    | (inr a, log') => k a log'
    | (inl e, log') => (inl e, log')
    end.

(** [try { m } catch (e) { h e }] *)
Definition try_catch {A} (m : M A) (h : Exn -> M A) : M A :=
  fun log =>
    match m log with
    | (inr a, log') => (inr a, log')
    | (inl e, log') => h e log'
    end.

(** A pure step that may throw. *)
Definition lift {A} (r : Exn + A) : M A :=
  match r with
  | inr a => ret a
  | inl e => throw e
  end.

Declare Scope js_scope.
Delimit Scope js_scope with js.
Notation "x <- m ;; k" := (bind m (fun x => k))
  (at level 61, m at next level, right associativity) : js_scope.
Notation "m ;;; k" := (bind m (fun _ => k))
  (at level 61, right associativity) : js_scope.
Local Open Scope js_scope.

(** Run a handler from the empty log. *)
Definition run {A} (m : M A) : (Exn + A) * list Event := m [].

(* ================================================================== *)
(** ** The server *)

Section Server.

Variable P : Platform.
Variable env : ProcessEnv.
Variable W : World.

(** *** Configuration *)

Definition env_or (v : option jsstring) (d : jsstring) : jsstring :=
  match v with
  | Some s => s
  | None => d
  end.

Definition UE_HOST : jsstring := env_or (env_UE_HOST env) (str "127.0.0.1").
Definition UE_PORT : float :=
  parseInt10 P (env_or (env_UE_PORT env) (str "30010")).
Definition UE_SSH_USER : jsstring :=
  env_or (env_UE_SSH_USER env) (str "claude").
Definition UE_BASE : jsstring :=
  str "http://" ++ UE_HOST ++ str ":" ++ Number_toString P UE_PORT.
Definition RESULT_FILE : jsstring := str "C:/tmp/nora_mcp_result.json".

(** *** Primitive steps *)

(** [await fetch(url, init)] *)
Definition do_fetch (req : Request) : M Response :=
  fun log =>
    let o := fetch W log req in
    (o, log ++ [EvFetch req o]).

(** [await new Promise((r) => setTimeout(r, ms))] *)
Definition setTimeout (ms : N) : M unit :=
  fun log => (inr tt, log ++ [EvTimeout ms]).

(** [execSync(cmd, { timeout, encoding: "utf-8" })] *)
Definition do_execSync (cmd : jsstring) (timeout : N) : M jsstring :=
  fun log =>
    let o := execSync W log cmd timeout in
    (o, log ++ [EvExecSync cmd timeout o]).

(** *** Value operations that may throw *)

(** [v.k] for the property names the handlers read ([error], [output],
    [Properties], [Functions], [Class], [Name], [Type], [Description],
    [Assets], [Path]); none of them is on a prototype, so a value that is
    not an object with that own property yields [undefined]. *)
Definition get_prop (v : JSValue) (k : jsstring) : Exn + JSValue :=
  match v with
  | JUndefined | JNull => inl (cannot_read_property P v k)
  | JObject ps => inr (lookup k ps)
  | _ => inr JUndefined
  end.

(** [v.length], for [v] neither [undefined] nor [null]. *)
Definition get_length (v : JSValue) : JSValue :=
  match v with
  | JArray xs => JNumber (number_of_nat (List.length xs))
  | JString s => JNumber (number_of_nat (List.length s))
  | JObject ps => lookup (str "length") ps
  | _ => JUndefined
  end.

(** ToString *)
Definition ToString (v : JSValue) : Exn + jsstring :=
  match v with
  | JUndefined => inr (str "undefined")
  | JNull => inr (str "null")
  | JBool true => inr (str "true")
  | JBool false => inr (str "false")
  | JNumber x => inr (Number_toString P x)
  | JString s => inr s
  | JArray _ | JObject _ => Object_toString P v
  end.

Fixpoint mapM {A B} (f : A -> M B) (xs : list A) : M (list B) :=
  match xs with
  | [] => ret []
  | x :: r => y <- f x ;; ys <- mapM f r ;; ret (y :: ys)
  end.

(** [v.map(f)], for [v] neither [undefined] nor [null] and held in the
    variable [name]. *)
Definition array_map (name : jsstring) (v : JSValue)
    (f : JSValue -> M JSValue) : M JSValue :=
  match v with
  | JArray xs => ys <- mapM f xs ;; ret (JArray ys)
  | _ => throw (is_not_a_function P (name ++ str ".map"))
  end.

(** *** HTTP helper *)

(** The request [ue] hands to [fetch]. *)
Definition ue_request (method path : jsstring) (body : option JSValue)
  : Request :=
  {| url := UE_BASE ++ path;
     method := method;
     headers := [(str "Content-Type", str "application/json")];
     body := option_map (fun b => JSON_stringify P b 0) body |}.

(** The message of the error [ue] throws on a response that is not ok. *)
Definition ue_error_message (method path : jsstring) (status : N)
    (text : jsstring) : jsstring :=
  str "UE " ++ method ++ str " " ++ path ++ str " " ++ rightwards_arrow
  ++ str " " ++ N_toString status ++ str ": " ++ slice0 500 text.

(** [ue(method, path, body?)] *)
Definition ue (method path : jsstring) (body : option JSValue) : M JSValue :=
  resp <- do_fetch (ue_request method path body) ;;
  text <- lift (resp_text resp) ;;
  if negb (resp_ok resp) then
    throw (new_Error (ue_error_message method path (status resp) text))
  else
    try_catch (lift (JSON_parse P text))
              (fun _ => ret (or_else (JString text) JNull)).

(** *** SSH helper *)

(** The command line [sshRead] runs. *)
Definition ssh_command (remotePath : jsstring) : jsstring :=
  let escaped := replace_all 47 92 remotePath in
  str "ssh -o ConnectTimeout=3 -o StrictHostKeyChecking=no "
  ++ UE_SSH_USER ++ str "@" ++ UE_HOST ++ str " " ++ dquote
  ++ str "type " ++ escaped ++ dquote.

(** [sshRead(remotePath)] *)
Definition sshRead (remotePath : jsstring) : M jsstring :=
  do_execSync (ssh_command remotePath) 10000.

(** *** Python execution with output capture *)

(** The harness: the user's code wrapped to capture stdout and write the
    result record to [RESULT_FILE]. *)
Definition wrapper (code : jsstring) : jsstring :=
  trim
    (newline
     ++ str "import sys, io, json, traceback" ++ newline
     ++ str "_nora_stdout = sys.stdout" ++ newline
     ++ str "_nora_buf = io.StringIO()" ++ newline
     ++ str "sys.stdout = _nora_buf" ++ newline
     ++ str "_nora_err = None" ++ newline
     ++ str "try:" ++ newline
     ++ str "    exec(" ++ JSON_stringify P (JString code) 0 ++ str ")" ++ newline
     ++ str "except Exception as e:" ++ newline
     ++ str "    _nora_err = traceback.format_exc()" ++ newline
     ++ str "finally:" ++ newline
     ++ str "    sys.stdout = _nora_stdout" ++ newline
     ++ str "    _nora_out = _nora_buf.getvalue()" ++ newline
     ++ str "    with open("
     ++ JSON_stringify P (JString (replace_all 92 47 RESULT_FILE)) 0
     ++ str ", 'w', encoding='utf-8') as f:" ++ newline
     ++ str "        json.dump({" ++ dquote ++ str "output" ++ dquote
     ++ str ": _nora_out, " ++ dquote ++ str "error" ++ dquote
     ++ str ": _nora_err}, f)" ++ newline).

(** The body of the dispatch request of [execPythonWithOutput]. *)
Definition harness_call (code : jsstring) : JSValue :=
  JObject
    [(str "objectPath",
      JString (str "/Script/PythonScriptPlugin.Default__PythonScriptLibrary"));
     (str "functionName", JString (str "ExecutePythonCommand"));
     (str "parameters",
      JObject [(str "PythonCommand", JString (wrapper code))])].

(** [execPythonWithOutput(code)].  The declared result type is [string];
    at run time it is whatever truthy value the record holds under
    [output], or the sentinel. *)
Definition execPythonWithOutput (code : jsstring) : M JSValue :=
  ue (str "PUT") (str "/remote/object/call") (Some (harness_call code)) ;;;
  setTimeout 200 ;;;
  raw <- sshRead RESULT_FILE ;;
  result <- lift (JSON_parse P raw) ;;
  error <- lift (get_prop result (str "error")) ;;
  if truthy error then
    msg <- lift (ToString error) ;;
    throw (new_Error msg)
  else
    output <- lift (get_prop result (str "output")) ;;
    ret (or_else output (JString (str "(no output)"))).

(** *** Result helpers *)

Record TextContent : Type := { type : jsstring; text : jsstring }.

(** [ToolResult]; [isError] is [true] when the field is present. *)
Record ToolResult : Type := {
  content : list TextContent;
  isError : bool
}.

(** [ok(data)] *)
Definition ok (data : JSValue) : ToolResult :=
  let text :=
    match data with
    | JString s => s
    | _ => JSON_stringify P data 2
    end in
  {| content := [{| type := str "text"; text := text |}];
     isError := false |}.

(** What [err] is handed: a caught [Error], or a string built by the
    handler. *)
Inductive ErrArg : Type :=
| Caught (e : Exn)
| Message (s : jsstring).

(** [err(error)] *)
Definition err (error : ErrArg) : ToolResult :=
  let msg :=
    match error with
    | Caught e => message e
    | Message s => s
    end in
  {| content := [{| type := str "text"; text := str "Error: " ++ msg |}];
     isError := true |}.

(** The [catch (e) { return err(e); }] that closes every handler. *)
Definition catch_err (m : M ToolResult) : M ToolResult :=
  try_catch m (fun e => ret (err (Caught e))).

(** *** Tool handlers *)

(** [ue_get_property] *)
Definition ue_get_property (object_path property_name : jsstring)
  : M ToolResult :=
  catch_err
    (r <- ue (str "PUT") (str "/remote/object/property")
            (Some (JObject
               [(str "objectPath", JString object_path);
                (str "access", JString (str "READ_ACCESS"));
                (str "propertyName", JString property_name)])) ;;
     ret (ok r)).

(** [ue_set_property] *)
Definition ue_set_property (object_path property_name value : jsstring)
  : M ToolResult :=
  catch_err
    (parsed <- try_catch (lift (JSON_parse P value))
                         (fun _ => ret (JString value)) ;;
     r <- ue (str "PUT") (str "/remote/object/property")
            (Some (JObject
               [(str "objectPath", JString object_path);
                (str "access", JString (str "WRITE_TRANSACTION_ACCESS"));
                (str "propertyName", JString property_name);
                (str "propertyValue", parsed)])) ;;
     ret (ok r)).

(** The request [ue_call_function] sends once it has its [params]. *)
Definition call_function_request (object_path function_name : jsstring)
    (params : JSValue) (generate_transaction : bool) : M ToolResult :=
  r <- ue (str "PUT") (str "/remote/object/call")
         (Some (JObject
            [(str "objectPath", JString object_path);
             (str "functionName", JString function_name);
             (str "parameters", params);
             (str "generateTransaction", JBool generate_transaction)])) ;;
  ret (ok r).

(** [ue_call_function]; [parameters] is optional, and
    [generate_transaction] arrives with its schema default applied. *)
Definition ue_call_function (object_path function_name : jsstring)
    (parameters : option jsstring) (generate_transaction : bool)
  : M ToolResult :=
  catch_err
    (match parameters with
     | Some s =>
         if is_empty s then
           call_function_request object_path function_name (JObject [])
                                 generate_transaction
         else
           match JSON_parse P s with
           | inr params =>
               call_function_request object_path function_name params
                                     generate_transaction
           | inl _ =>
               ret (err (Message (str "Invalid JSON in parameters: " ++ s)))
           end
     | None =>
         call_function_request object_path function_name (JObject [])
                               generate_transaction
     end).

(** One entry of the [Properties] summary of [ue_describe_object]. *)
Definition describe_property (p : JSValue) : M JSValue :=
  name <- lift (get_prop p (str "Name")) ;;
  ty <- lift (get_prop p (str "Type")) ;;
  d <- lift (get_prop p (str "Description")) ;;
  ret (JObject ([(str "Name", name); (str "Type", ty)]
                ++ (if truthy d then [(str "Description", d)] else []))).

(** One entry of the [Functions] summary of [ue_describe_object]. *)
Definition describe_function (f : JSValue) : M JSValue :=
  name <- lift (get_prop f (str "Name")) ;;
  d <- lift (get_prop f (str "Description")) ;;
  ret (JObject ([(str "Name", name)]
                ++ (if truthy d then [(str "Description", d)] else []))).

(** [ue_describe_object] *)
Definition ue_describe_object (object_path : jsstring) : M ToolResult :=
  catch_err
    (raw <- ue (str "PUT") (str "/remote/object/describe")
              (Some (JObject [(str "objectPath", JString object_path)])) ;;
     p0 <- lift (get_prop raw (str "Properties")) ;;
     let props := nullish_or p0 (JArray []) in
     f0 <- lift (get_prop raw (str "Functions")) ;;
     let funcs := nullish_or f0 (JArray []) in
     cls <- lift (get_prop raw (str "Class")) ;;
     name <- lift (get_prop raw (str "Name")) ;;
     let property_count := get_length props in
     properties <- array_map (str "props") props describe_property ;;
     let function_count := get_length funcs in
     functions <- array_map (str "funcs") funcs describe_function ;;
     ret (ok (JObject
            [(str "Class", cls);
             (str "Name", name);
             (str "PropertyCount", property_count);
             (str "Properties", properties);
             (str "FunctionCount", function_count);
             (str "Functions", functions)]))).

(** The [filter] object of [ue_search_assets]. *)
Definition search_filter (class_names path_filter : option jsstring)
  : JSValue :=
  JObject
    ((match class_names with
      | Some s =>
          if is_empty s then []
          else [(str "classNames",
                 JArray (map (fun x => JString (trim x)) (split 44 s)))]
      | None => []
      end)
     ++
     (match path_filter with
      | Some s =>
          if is_empty s then [] else [(str "paths", JArray [JString s])]
      | None => []
      end)).

(** One entry of the compact result of [ue_search_assets]. *)
Definition compact_asset (a : JSValue) : M JSValue :=
  name <- lift (get_prop a (str "Name")) ;;
  cls <- lift (get_prop a (str "Class")) ;;
  path <- lift (get_prop a (str "Path")) ;;
  ret (JObject [(str "Name", name); (str "Class", cls); (str "Path", path)]).

(** [ue_search_assets] *)
Definition ue_search_assets (query : jsstring)
    (class_names path_filter : option jsstring) : M ToolResult :=
  catch_err
    (raw <- ue (str "PUT") (str "/remote/search/assets")
              (Some (JObject
                 [(str "query", JString query);
                  (str "filter", search_filter class_names path_filter)])) ;;
     a0 <- lift (get_prop raw (str "Assets")) ;;
     let assets := nullish_or a0 (JArray []) in
     compact <- array_map (str "assets") assets compact_asset ;;
     ret (ok (JObject
            [(str "Count", get_length compact);
             (str "Assets", compact)]))).

(** The script [ue_list_actors] runs in the editor. *)
Definition list_actors_code : jsstring :=
  newline
  ++ str "import unreal" ++ newline
  ++ str "actors = unreal.EditorLevelLibrary.get_all_level_actors()" ++ newline
  ++ str "for a in actors:" ++ newline
  ++ str "    loc = a.get_actor_location()" ++ newline
  ++ str "    print(f" ++ dquote
  ++ str "{a.get_name()} | {a.get_class().get_name()} | ({loc.x:.0f}, {loc.y:.0f}, {loc.z:.0f})"
  ++ dquote ++ str ")" ++ newline.

(** [ue_list_actors] *)
Definition ue_list_actors : M ToolResult :=
  catch_err
    (output <- execPythonWithOutput list_actors_code ;;
     ret (ok output)).

(** [ue_exec_console] *)
Definition ue_exec_console (command : jsstring) : M ToolResult :=
  catch_err
    (ue (str "PUT") (str "/remote/object/call")
        (Some (JObject
           [(str "objectPath",
             JString (str "/Script/Engine.Default__KismetSystemLibrary"));
            (str "functionName", JString (str "ExecuteConsoleCommand"));
            (str "parameters",
             JObject
               [(str "WorldContextObject",
                 JObject [(str "objectPath", JString [])]);
                (str "Command", JString command)])])) ;;;
     ret (ok (JString (str "Console command sent: " ++ command ++ newline
                       ++ str "Check UE Output Log for results.")))).

(** [ue_exec_python] *)
Definition ue_exec_python (code : jsstring) : M ToolResult :=
  catch_err
    (output <- execPythonWithOutput code ;;
     ret (ok output)).

(** [ue_batch] *)
Definition ue_batch (requests : jsstring) : M ToolResult :=
  catch_err
    (match JSON_parse P requests with
     | inr parsed =>
         r <- ue (str "PUT") (str "/remote/batch")
                (Some (JObject [(str "requests", parsed)])) ;;
         ret (ok r)
     | inl _ =>
         ret (err (Message (str "Invalid JSON array: "
                            ++ slice0 200 requests)))
     end).

(** [ue_remote_info] *)
Definition ue_remote_info : M ToolResult :=
  catch_err (r <- ue (str "GET") (str "/remote/info") None ;; ret (ok r)).

End Server.

(** A call of one of the ten registered tools, with its validated
    arguments. *)
Inductive ToolCall : Type :=
| call_ue_get_property (object_path property_name : jsstring)
| call_ue_set_property (object_path property_name value : jsstring)
| call_ue_call_function (object_path function_name : jsstring)
    (parameters : option jsstring) (generate_transaction : bool)
| call_ue_describe_object (object_path : jsstring)
| call_ue_search_assets (query : jsstring)
    (class_names path_filter : option jsstring)
| call_ue_list_actors
| call_ue_exec_console (command : jsstring)
| call_ue_exec_python (code : jsstring)
| call_ue_batch (requests : jsstring)
| call_ue_remote_info.

(** The tool registry of version 0.2.0. *)
Definition handle (P : Platform) (env : ProcessEnv) (W : World)
    (c : ToolCall) : M ToolResult :=
  match c with
  | call_ue_get_property o p => ue_get_property P env W o p
  | call_ue_set_property o p v => ue_set_property P env W o p v
  | call_ue_call_function o f ps g => ue_call_function P env W o f ps g
  | call_ue_describe_object o => ue_describe_object P env W o
  | call_ue_search_assets q c p => ue_search_assets P env W q c p
  | call_ue_list_actors => ue_list_actors P env W
  | call_ue_exec_console c => ue_exec_console P env W c
  | call_ue_exec_python c => ue_exec_python P env W c
  | call_ue_batch r => ue_batch P env W r
  | call_ue_remote_info => ue_remote_info P env W
  end.

(* ================================================================== *)
(** ** Version 0.1.0: the handlers that differ *)

Module V010.
Section Server.

Variable P : Platform.
Variable env : ProcessEnv.
Variable W : World.

(** [ue_describe_object] *)
Definition ue_describe_object (object_path : jsstring) : M ToolResult :=
  catch_err
    (r <- ue P env W (str "PUT") (str "/remote/object/describe")
            (Some (JObject [(str "objectPath", JString object_path)])) ;;
     ret (ok P r)).

(** [ue_search_assets] *)
Definition ue_search_assets (query : jsstring)
    (class_names path_filter : option jsstring) : M ToolResult :=
  catch_err
    (r <- ue P env W (str "PUT") (str "/remote/search/assets")
            (Some (JObject
               [(str "query", JString query);
                (str "filter", search_filter class_names path_filter)])) ;;
     ret (ok P r)).

(** [ue_list_actors] *)
Definition ue_list_actors : M ToolResult :=
  catch_err
    (r <- ue P env W (str "PUT") (str "/remote/object/call")
            (Some (JObject
               [(str "objectPath",
                 JString (str "/Script/EditorScriptingUtilities.Default__EditorLevelLibrary"));
                (str "functionName", JString (str "GetAllLevelActors"));
                (str "parameters", JObject [])])) ;;
     ret (ok P r)).

(** The body of the first dispatch of [ue_exec_python]. *)
Definition python_library_call (code : jsstring) : JSValue :=
  JObject
    [(str "objectPath",
      JString (str "/Script/PythonScriptPlugin.Default__PythonScriptLibrary"));
     (str "functionName", JString (str "ExecutePythonCommand"));
     (str "parameters", JObject [(str "PythonCommand", JString code)])].

(** The body of the fallback dispatch of [ue_exec_python]. *)
Definition python_console_call (code : jsstring) : JSValue :=
  JObject
    [(str "objectPath",
      JString (str "/Script/Engine.Default__KismetSystemLibrary"));
     (str "functionName", JString (str "ExecuteConsoleCommand"));
     (str "parameters",
      JObject
        [(str "WorldContextObject", JObject [(str "objectPath", JString [])]);
         (str "Command", JString (str "py " ++ code))])].

(** [ue_exec_python]: the direct call first, the console command when
    that throws. *)
Definition ue_exec_python (code : jsstring) : M ToolResult :=
  catch_err
    (try_catch
       (ue P env W (str "PUT") (str "/remote/object/call")
           (Some (python_library_call code)) ;;;
        ret (ok P (JString (str "Python executed via PythonScriptLibrary."
                            ++ newline
                            ++ str "Check UE Output Log for output."))))
       (fun _ =>
          ue P env W (str "PUT") (str "/remote/object/call")
             (Some (python_console_call code)) ;;;
          ret (ok P (JString (str "Python executed via console command."
                              ++ newline
                              ++ str "Check UE Output Log for output."))))).

(** The tool registry of version 0.1.0. *)
Definition handle (c : ToolCall) : M ToolResult :=
  match c with
  | call_ue_get_property o p => ue_get_property P env W o p
  | call_ue_set_property o p v => ue_set_property P env W o p v
  | call_ue_call_function o f ps g => ue_call_function P env W o f ps g
  | call_ue_describe_object o => ue_describe_object o
  | call_ue_search_assets q c p => ue_search_assets q c p
  | call_ue_list_actors => ue_list_actors
  | call_ue_exec_console c => ue_exec_console P env W c
  | call_ue_exec_python c => ue_exec_python c
  | call_ue_batch r => ue_batch P env W r
  | call_ue_remote_info => ue_remote_info P env W
  end.

End Server.
End V010.

(* ================================================================== *)
(** ** Outcomes of the steps, for the statements below *)

Section Outcomes.

Variable P : Platform.

(** What [ue] returns or throws once [fetch] has answered [o]. *)
Definition ue_outcome (method path : jsstring) (o : Exn + Response)
  : Exn + JSValue :=
  match o with
  | inl e => inl e
  | inr resp =>
      match resp_text resp with
      | inl e => inl e
      | inr text =>
          if resp_ok resp then
            match JSON_parse P text with
            | inr v => inr v
            | inl _ => inr (if is_empty text then JNull else JString text)
            end
          else inl (new_Error (ue_error_message method path (status resp) text))
      end
  end.

(** What [execPythonWithOutput] returns or throws once the ssh read has
    given [o]. *)
Definition capture_outcome (o : Exn + jsstring) : Exn + JSValue :=
  match o with
  | inl e => inl e
  | inr raw =>
      match JSON_parse P raw with
      | inl e => inl e
      | inr result =>
          match get_prop P result (str "error") with
          | inl e => inl e
          | inr error =>
              if truthy error then
                match ToString P error with
                | inl e => inl e
                | inr msg => inl (new_Error msg)
                end
              else
                match get_prop P result (str "output") with
                | inl e => inl e
                | inr output =>
                    inr (if truthy output then output
                         else JString (str "(no output)"))
                end
          end
      end
  end.

(** Whether the step an event records raised an error: a [fetch] that
    rejected, a body that could not be read, a status that is not ok; an
    ssh read that failed, or whose text does not parse, or whose record
    reports an error. *)
Definition step_failed (ev : Event) : bool :=
  match ev with
  | EvFetch _ (inl _) => true
  | EvFetch _ (inr resp) =>
      match resp_text resp with
      | inl _ => true
      | inr _ => negb (resp_ok resp)
      end
  | EvTimeout _ => false
  | EvExecSync _ _ o =>
      match capture_outcome o with
      | inl _ => true
      | inr _ => false
      end
  end.

End Outcomes.

(** The result a handler builds from the outcome of its one [ue] call:
    [k] on the value, [err] on the error. *)
Definition settle (k : JSValue -> ToolResult) (o : Exn + JSValue)
  : ToolResult :=
  match o with
  | inr v => k v
  | inl e => err (Caught e)
  end.

(** The uniform failure payload: the error flag and a text that starts
    with [Error: ]. *)
Definition is_failure_payload (r : ToolResult) : Prop :=
  isError r = true /\
  exists msg, content r = [{| type := str "text"; text := str "Error: " ++ msg |}].

(** The propagation policy on one run of a handler: nothing escapes; a
    run in which some step raised an error ends in the failure payload;
    and when the step that failed is a [fetch] that rejected or an ssh
    read that failed, the payload carries the message of that very
    error. *)
Definition boundary_policy (P : Platform)
    (out : (Exn + ToolResult) * list Event) : Prop :=
  exists r,
    fst out = inr r
    /\ (existsb (step_failed P) (snd out) = true -> is_failure_payload r)
    /\ (forall req e, In (EvFetch req (inl e)) (snd out) -> r = err (Caught e))
    /\ (forall cmd timeout e,
          In (EvExecSync cmd timeout (inl e)) (snd out) -> r = err (Caught e)).

(** The same for the last step only: nothing escapes, and a run whose
    last step raised an error ends in the failure payload. *)
Definition final_step_policy (P : Platform)
    (out : (Exn + ToolResult) * list Event) : Prop :=
  exists r,
    fst out = inr r
    /\ forall before ev,
         snd out = before ++ [ev] -> step_failed P ev = true ->
         is_failure_payload r.

(** The three courses a run of a 0.2.0 handler can take: no I/O; one
    request, whose error, if any, is the result; or the whole capture
    sequence after an accepted dispatch. *)
Inductive RunShape (P : Platform)
  : (Exn + ToolResult) * list Event -> Prop :=
| shape_no_io (r : ToolResult) :
    RunShape P (inr r, [])
| shape_one_request (r : ToolResult) (method path : jsstring)
    (req : Request) (o : Exn + Response) :
    (forall e, ue_outcome P method path o = inl e -> r = err (Caught e)) ->
    RunShape P (inr r, [EvFetch req o])
| shape_capture (method path : jsstring) (req : Request)
    (o : Exn + Response) (v : JSValue) (cmd : jsstring)
    (x : Exn + jsstring) :
    ue_outcome P method path o = inr v ->
    RunShape P (inr (settle (ok P) (capture_outcome P x)),
                [EvFetch req o; EvTimeout 200; EvExecSync cmd 10000 x]).

(** A computation that performs no I/O. *)
Definition quiet {A} (m : M A) : Prop :=
  forall log, snd (m log) = log.

Definition is_fetch (ev : Event) : bool :=
  match ev with EvFetch _ _ => true | _ => false end.

Definition is_execSync (ev : Event) : bool :=
  match ev with EvExecSync _ _ _ => true | _ => false end.

Definition is_timeout (ev : Event) : bool :=
  match ev with EvTimeout _ => true | _ => false end.

(** How many events of a kind a log holds. *)
Definition count (kind : Event -> bool) (log : list Event) : nat :=
  List.length (filter kind log).



(** The entries [ue_describe_object] and [ue_search_assets] put in their
    summaries. *)
Definition is_property_summary (p : JSValue) : Prop :=
  exists name ty,
    p = JObject [(str "Name", name); (str "Type", ty)]
    \/ exists d, truthy d = true
                 /\ p = JObject [(str "Name", name); (str "Type", ty);
                                 (str "Description", d)].

Definition is_function_summary (f : JSValue) : Prop :=
  exists name,
    f = JObject [(str "Name", name)]
    \/ exists d, truthy d = true
                 /\ f = JObject [(str "Name", name); (str "Description", d)].

Definition is_asset_summary (a : JSValue) : Prop :=
  exists name cls path,
    a = JObject [(str "Name", name); (str "Class", cls); (str "Path", path)].

(** A string with no white space at either end. *)
Definition trimmed (t : jsstring) : Prop :=
  (forall c r, t = c :: r -> is_white_space c = false)
  /\ (forall r c, t = r ++ [c] -> is_white_space c = false).

(** The only requests the server is meant to make: to a path under
    [/remote/] of the configured endpoint, with the JSON content type, a
    PUT with a body or a GET without one. *)
Definition expected_request (P : Platform) (env : ProcessEnv)
    (req : Request) : Prop :=
  (exists path, url req = UE_BASE P env ++ str "/remote/" ++ path)
  /\ headers req = [(str "Content-Type", str "application/json")]
  /\ ((method req = str "PUT" /\ body req <> None)
      \/ (method req = str "GET" /\ body req = None)).

(** The only interactions the server is meant to have: such a request,
    the wait of 200 milliseconds, and the one ssh command that types the
    result file, with its timeout of ten seconds. *)
Definition expected_event (P : Platform) (env : ProcessEnv) (ev : Event)
  : Prop :=
  match ev with
  | EvFetch req _ => expected_request P env req
  | EvTimeout ms => ms = 200%N
  | EvExecSync cmd timeout _ =>
      cmd = ssh_command env RESULT_FILE /\ timeout = 10000%N
  end.

(* ================================================================== *)
(** ** A reference platform for closed examples

    [Sample] implements the builtins on a fragment that is enough to run
    the handlers on concrete inputs: JSON whose numbers are integer
    literals below 2^53 and whose object keys are not array indices
    (which JavaScript would move to the front).  On that fragment
    [Sample.JSON_parse] and [Sample.JSON_stringify] follow ECMAScript;
    the messages of the errors are the engine's business and are fixed
    texts here.  The theorems below are stated for every [Platform];
    [Sample] only serves to evaluate them. *)

Module Sample.

Definition is_json_ws (c : N) : bool :=
  existsb (N.eqb c) [32; 9; 10; 13]%N.

Fixpoint skip_ws (s : jsstring) : jsstring :=
  match s with
  | c :: r => if is_json_ws c then skip_ws r else s
  | [] => []
  end.

Fixpoint strip_prefix (p s : jsstring) : option jsstring :=
  match p, s with
  | [], _ => Some s
  | x :: p', y :: s' => if N.eqb x y then strip_prefix p' s' else None
  | _ :: _, [] => None
  end.

Definition is_digit (c : N) : bool := N.leb 48 c && N.leb c 57.

Definition hex_value (c : N) : option N :=
  if is_digit c then Some (c - 48)%N
  else if N.leb 97 c && N.leb c 102 then Some (c - 87)%N
  else if N.leb 65 c && N.leb c 70 then Some (c - 55)%N
  else None.

Definition hex4 (a b c d : N) : option N :=
  match hex_value a, hex_value b, hex_value c, hex_value d with
  | Some x, Some y, Some z, Some w => Some (((x * 16 + y) * 16 + z) * 16 + w)%N
  | _, _, _, _ => None
  end.

(** The character an escape [\c] stands for. *)
Definition unescape (c : N) : option N :=
  match c with
  | 34 => Some 34 | 92 => Some 92 | 47 => Some 47
  | 98 => Some 8 | 102 => Some 12 | 110 => Some 10
  | 114 => Some 13 | 116 => Some 9
  | _ => None
  end%N.

Definition cons_fst {A} (c : A) (r : option (list A * jsstring))
  : option (list A * jsstring) :=
  match r with
  | Some (l, rest) => Some (c :: l, rest)
  | None => None
  end.

(** The characters of a string literal after its opening quote, and the
    text after its closing quote. *)
Fixpoint parse_chars (s : jsstring) : option (jsstring * jsstring) :=
  match s with
  | [] => None
  | c :: r =>
      if N.eqb c 34 then Some ([], r)
      else if N.eqb c 92 then
        match r with
        | e :: r' =>
            if N.eqb e 117 then
              match r' with
              | h1 :: h2 :: h3 :: h4 :: r'' =>
                  match hex4 h1 h2 h3 h4 with
                  | Some u => cons_fst u (parse_chars r'')
                  | None => None
                  end
              | _ => None
              end
            else
              match unescape e with
              | Some u => cons_fst u (parse_chars r')
              | None => None
              end
        | [] => None
        end
      else if N.ltb c 32 then None
      else cons_fst c (parse_chars r)
  end.

Fixpoint take_digits (s : jsstring) : list N * jsstring :=
  match s with
  | c :: r =>
      if is_digit c then
        let (ds, rest) := take_digits r in (c :: ds, rest)
      else ([], s)
  | [] => ([], [])
  end.

Definition digits_value (ds : list N) : Z :=
  fold_left (fun acc d => acc * 10 + Z.of_N (d - 48))%Z ds 0%Z.

(** An integer literal: no leading zero, no fraction, no exponent, and a
    magnitude a float holds exactly. *)
Definition parse_number (s : jsstring) : option (JSValue * jsstring) :=
  let (neg, s1) :=
    match s with
    | 45%N :: r => (true, r)
    | _ => (false, s)
    end in
  let (ds, rest) := take_digits s1 in
  let well_formed :=
    match ds with
    | [] => false
    | [_] => true
    | d :: _ => negb (N.eqb d 48)
    end in
  let continues :=
    match rest with
    | c :: _ => existsb (N.eqb c) [46; 101; 69]%N
    | [] => false
    end in
  let z := digits_value ds in
  if well_formed && negb continues && (z <? 2 ^ 53)%Z then
    let x := PrimFloat.of_uint63 (Uint63.of_Z z) in
    Some (JNumber (if neg then PrimFloat.opp x else x), rest)
  else None.

(** [obj[k] = v] while an object literal is read: a repeated key keeps
    its place and takes the later value. *)
Fixpoint set_prop (k : jsstring) (v : JSValue)
    (ps : list (jsstring * JSValue)) : list (jsstring * JSValue) :=
  match ps with
  | [] => [(k, v)]
  | (k', v') :: r =>
      if jsstring_eqb k k' then (k, v) :: r else (k', v') :: set_prop k v r
  end.

Fixpoint parse_value (fuel : nat) (s : jsstring)
  : option (JSValue * jsstring) :=
  match fuel with
  | O => None
  | S fuel' =>
      match skip_ws s with
      | [] => None
      | c :: r =>
          if N.eqb c 34 then
            match parse_chars r with
            | Some (cs, rest) => Some (JString cs, rest)
            | None => None
            end
          else if N.eqb c 91 then
            match skip_ws r with
            | 93%N :: rest => Some (JArray [], rest)
            | _ =>
                match parse_elements fuel' r with
                | Some (xs, rest) => Some (JArray xs, rest)
                | None => None
                end
            end
          else if N.eqb c 123 then
            match skip_ws r with
            | 125%N :: rest => Some (JObject [], rest)
            | _ =>
                match parse_members fuel' [] r with
                | Some (ps, rest) => Some (JObject ps, rest)
                | None => None
                end
            end
          else
            match strip_prefix (str "null") (c :: r),
                  strip_prefix (str "true") (c :: r),
                  strip_prefix (str "false") (c :: r) with
            | Some rest, _, _ => Some (JNull, rest)
            | _, Some rest, _ => Some (JBool true, rest)
            | _, _, Some rest => Some (JBool false, rest)
            | None, None, None => parse_number (c :: r)
            end
      end
  end

with parse_elements (fuel : nat) (s : jsstring)
  : option (list JSValue * jsstring) :=
  match fuel with
  | O => None
  | S fuel' =>
      match parse_value fuel' s with
      | Some (v, r) =>
          match skip_ws r with
          | 44%N :: r' =>
              match parse_elements fuel' r' with
              | Some (vs, rest) => Some (v :: vs, rest)
              | None => None
              end
          | 93%N :: rest => Some ([v], rest)
          | _ => None
          end
      | None => None
      end
  end

with parse_members (fuel : nat) (acc : list (jsstring * JSValue))
    (s : jsstring) : option (list (jsstring * JSValue) * jsstring) :=
  match fuel with
  | O => None
  | S fuel' =>
      match skip_ws s with
      | 34%N :: r =>
          match parse_chars r with
          | Some (k, r1) =>
              match skip_ws r1 with
              | 58%N :: r2 =>
                  match parse_value fuel' r2 with
                  | Some (v, r3) =>
                      let acc' := set_prop k v acc in
                      match skip_ws r3 with
                      | 44%N :: r4 => parse_members fuel' acc' r4
                      | 125%N :: rest => Some (acc', rest)
                      | _ => None
                      end
                  | None => None
                  end
              | _ => None
              end
          | None => None
          end
      | _ => None
      end
  end.

(** [JSON.parse(text)] *)
Definition JSON_parse (text : jsstring) : Exn + JSValue :=
  match parse_value (2 * List.length text + 2) text with
  | Some (v, rest) =>
      match skip_ws rest with
      | [] => inr v
      | _ :: _ => inl (new_Error (str "Unexpected non-whitespace character after JSON"))
      end
  | None => inl (new_Error (str "Unexpected token in JSON"))
  end.

(** *** Printing *)

Definition hex_digit (n : N) : N :=
  if N.ltb n 10 then (48 + n)%N else (87 + n)%N.

(** [\uXXXX] with lower-case digits. *)
Definition unicode_escape (c : N) : jsstring :=
  [92; 117]%N
  ++ [hex_digit (c / 4096 mod 16); hex_digit (c / 256 mod 16);
      hex_digit (c / 16 mod 16); hex_digit (c mod 16)]%N.

Definition is_high_surrogate (c : N) : bool := N.leb 55296 c && N.leb c 56319.
Definition is_low_surrogate (c : N) : bool := N.leb 56320 c && N.leb c 57343.

Definition escape_unit (c : N) : jsstring :=
  match c with
  | 8 => [92; 98] | 9 => [92; 116] | 10 => [92; 110]
  | 12 => [92; 102] | 13 => [92; 114]
  | 34 => [92; 34] | 92 => [92; 92]
  | _ => if N.ltb c 32 then unicode_escape c else [c]
  end%N.

Fixpoint quote_chars (s : jsstring) : jsstring :=
  match s with
  | [] => []
  | c :: r =>
      if is_high_surrogate c then
        match r with
        | d :: r' =>
            if is_low_surrogate d then c :: d :: quote_chars r'
            else unicode_escape c ++ quote_chars r
        | [] => unicode_escape c
        end
      else if is_low_surrogate c then unicode_escape c ++ quote_chars r
      else escape_unit c ++ quote_chars r
  end.

(** QuoteJSONString *)
Definition quote (s : jsstring) : jsstring :=
  dquote ++ quote_chars s ++ dquote.

(** A finite float cut to an integer, towards zero. *)
Definition truncate (x : float) : Z :=
  match Prim2SF x with
  | S754_finite neg m e =>
      let sign := if neg then (-1)%Z else 1%Z in
      if (0 <=? e)%Z then (sign * (Z.pos m * 2 ^ e))%Z
      else (sign * (Z.pos m / 2 ^ (- e)))%Z
  | S754_zero _ | S754_infinity _ | S754_nan => 0%Z
  end.

(** Number::toString on integers, [NaN] and the infinities; a number
    with a fraction is outside the fragment and prints truncated. *)
Definition Number_toString (x : float) : jsstring :=
  if PrimFloat.is_nan x then str "NaN"
  else if PrimFloat.is_infinity x then
    (if PrimFloat.ltb x 0%float then str "-Infinity" else str "Infinity")
  else
    let z := truncate x in
    (if (z <? 0)%Z then str "-" else []) ++ N_toString (Z.to_N (Z.abs z)).

Fixpoint join (sep : jsstring) (l : list jsstring) : jsstring :=
  match l with
  | [] => []
  | [x] => x
  | x :: r => x ++ sep ++ join sep r
  end.

Definition is_finite (x : float) : bool :=
  negb (PrimFloat.is_nan x || PrimFloat.is_infinity x).

(** SerializeJSONProperty with the current indentation [cur] and the
    indentation unit [gap]; [undefined] has no text. *)
Fixpoint serialize (gap cur : jsstring) (v : JSValue) : option jsstring :=
  let inner := cur ++ gap in
  let wrap (l r : jsstring) (items : list jsstring) : jsstring :=
    match items with
    | [] => l ++ r
    | _ :: _ =>
        if is_empty gap then l ++ join (str ",") items ++ r
        else l ++ newline ++ inner
             ++ join (str "," ++ newline ++ inner) items
             ++ newline ++ cur ++ r
    end in
  match v with
  | JUndefined => None
  | JNull => Some (str "null")
  | JBool true => Some (str "true")
  | JBool false => Some (str "false")
  | JNumber x => Some (if is_finite x then Number_toString x else str "null")
  | JString s => Some (quote s)
  | JArray xs =>
      Some (wrap (str "[") (str "]")
              ((fix items (l : list JSValue) : list jsstring :=
                  match l with
                  | [] => []
                  | x :: r =>
                      match serialize gap inner x with
                      | Some t => t
                      | None => str "null"
                      end :: items r
                  end) xs))
  | JObject ps =>
      Some (wrap (str "{") (str "}")
              ((fix members (l : list (jsstring * JSValue)) : list jsstring :=
                  match l with
                  | [] => []
                  | (k, x) :: r =>
                      match serialize gap inner x with
                      | Some t =>
                          (quote k ++ str ":"
                           ++ (if is_empty gap then [] else str " ") ++ t)
                          :: members r
                      | None => members r
                      end
                  end) ps))
  end.

(** [JSON.stringify(v, null, space)]; for [undefined], where the builtin
    returns no string, the empty one. *)
Definition JSON_stringify (v : JSValue) (space : N) : jsstring :=
  match serialize (repeat 32%N (N.to_nat (N.min space 10))) [] v with
  | Some t => t
  | None => []
  end.

(** [parseInt(s, 10)] on an optional sign and decimal digits. *)
Definition parseInt10 (s : jsstring) : float :=
  let s0 := trim_start s in
  let (neg, s1) :=
    match s0 with
    | 45%N :: r => (true, r)
    | 43%N :: r => (false, r)
    | _ => (false, s0)
    end in
  match take_digits s1 with
  | ([], _) => PrimFloat.nan
  | (ds, _) =>
      let x := PrimFloat.of_uint63 (Uint63.of_Z (digits_value ds)) in
      if neg then PrimFloat.opp x else x
  end.

(** ToString of arrays and plain objects. *)
Fixpoint Object_toString_text (v : JSValue) : jsstring :=
  match v with
  | JUndefined | JNull => []
  | JBool true => str "true"
  | JBool false => str "false"
  | JNumber x => Number_toString x
  | JString s => s
  | JArray xs =>
      join (str ",")
        ((fix items (l : list JSValue) : list jsstring :=
            match l with
            | [] => []
            | x :: r => Object_toString_text x :: items r
            end) xs)
  | JObject _ => str "[object Object]"
  end.

Definition platform : Platform :=
  Build_Platform
    JSON_parse JSON_stringify parseInt10 Number_toString
    (fun v => inr (Object_toString_text v))
    (fun v k =>
       new_Error (str "Cannot read properties of "
                  ++ match v with JNull => str "null" | _ => str "undefined" end
                  ++ str " (reading '" ++ k ++ str "')"))
    (fun callee => new_Error (callee ++ str " is not a function")).

(** No variable of the environment is set. *)
Definition default_env : ProcessEnv :=
  {| env_UE_HOST := None; env_UE_PORT := None; env_UE_SSH_USER := None |}.

(** An HTTP answer with the given status and body text. *)
Definition reply (status : N) (body : jsstring) : Exn + Response :=
  inr {| status := status; resp_text := inr body |}.

(** The file [json.dump] writes for a result record. *)
Definition json_dump_record (output : jsstring) (error : option jsstring)
  : jsstring :=
  str "{" ++ quote (str "output") ++ str ": " ++ quote output ++ str ", "
  ++ quote (str "error") ++ str ": "
  ++ match error with
     | Some trace => quote trace
     | None => str "null"
     end
  ++ str "}".

(** What the endpoint answers to an accepted function call. *)
Definition return_value_true : jsstring :=
  JSON_stringify (JObject [(str "ReturnValue", JBool true)]) 0.

(** A property read answered by the engine. *)
Definition relative_location : jsstring :=
  JSON_stringify
    (JObject
       [(str "RelativeLocation",
         JObject [(str "X", JNumber 100); (str "Y", JNumber 0);
                  (str "Z", JNumber 50)])]) 0.

(** A single request object, where [ue_batch] documents an array. *)
Definition single_request : jsstring :=
  JSON_stringify
    (JObject
       [(str "objectPath", JString (str "/Game/Maps/Main.Main:PersistentLevel.Cube"));
        (str "access", JString (str "READ_ACCESS"));
        (str "propertyName", JString (str "RelativeLocation"))]) 0.

(** What the engine answers when asked to describe an actor. *)
Definition describe_answer : jsstring :=
  JSON_stringify
    (JObject
       [(str "Name", JString (str "Cube"));
        (str "Class", JString (str "/Script/Engine.StaticMeshActor"));
        (str "Properties",
         JArray
           [JObject [(str "Name", JString (str "bHidden"));
                     (str "Description", JString (str "Hides the actor"));
                     (str "Type", JString (str "bool"));
                     (str "Metadata", JObject [])];
            JObject [(str "Name", JString (str "Tags"));
                     (str "Type", JString (str "TArray<FName>"))]]);
        (str "Functions",
         JArray [JObject [(str "Name", JString (str "K2_DestroyActor"))]])])
    0.

(** A world that always answers the same. *)
Definition constant_world (http : Exn + Response) (ssh : Exn + jsstring)
  : World :=
  {| fetch := fun _ _ => http; execSync := fun _ _ _ => ssh |}.

(** The engine accepts the harness and the file read back over ssh is
    [file]. *)
Definition capturing (file : jsstring) : World :=
  constant_world (reply 200 return_value_true) (inr file).

(** A trace as [traceback.format_exc()] returns it. *)
Definition zero_division_trace : jsstring :=
  str "Traceback (most recent call last):" ++ newline
  ++ str "  File " ++ dquote ++ str "<string>" ++ dquote
  ++ str ", line 1, in <module>" ++ newline
  ++ str "ZeroDivisionError: division by zero" ++ newline.

(** The engine accepts every call; nothing answers on ssh. *)
Definition accepting : World :=
  constant_world (reply 200 return_value_true)
                 (inl (new_Error (str "ssh: connect refused"))).

(** A world whose endpoint rejects the first request with status 500 and
    accepts every later one with an empty body. *)
Definition first_call_fails : World :=
  {| fetch := fun log _ =>
       match log with
       | [] => reply 500 (str "no such function")
       | _ :: _ => reply 200 []
       end;
     execSync := fun _ _ _ => inl (new_Error (str "ssh: connect refused")) |}.

End Sample.

(* ================================================================== *)
(** ** The model at work *)

Example UE_BASE_default :
  UE_BASE Sample.platform Sample.default_env = str "http://127.0.0.1:30010".
Proof. reflexivity. Qed.

Example ssh_command_default :
  ssh_command Sample.default_env RESULT_FILE =
  str "ssh -o ConnectTimeout=3 -o StrictHostKeyChecking=no claude@127.0.0.1 "
  ++ dquote ++ str "type C:\tmp\nora_mcp_result.json" ++ dquote.
Proof. reflexivity. Qed.

Example wrapper_print_hi :
  wrapper Sample.platform (str "print('hi')") =
  str "import sys, io, json, traceback" ++ newline
  ++ str "_nora_stdout = sys.stdout" ++ newline
  ++ str "_nora_buf = io.StringIO()" ++ newline
  ++ str "sys.stdout = _nora_buf" ++ newline
  ++ str "_nora_err = None" ++ newline
  ++ str "try:" ++ newline
  ++ str "    exec(" ++ dquote ++ str "print('hi')" ++ dquote ++ str ")"
  ++ newline
  ++ str "except Exception as e:" ++ newline
  ++ str "    _nora_err = traceback.format_exc()" ++ newline
  ++ str "finally:" ++ newline
  ++ str "    sys.stdout = _nora_stdout" ++ newline
  ++ str "    _nora_out = _nora_buf.getvalue()" ++ newline
  ++ str "    with open(" ++ dquote ++ str "C:/tmp/nora_mcp_result.json"
  ++ dquote ++ str ", 'w', encoding='utf-8') as f:" ++ newline
  ++ str "        json.dump({" ++ dquote ++ str "output" ++ dquote
  ++ str ": _nora_out, " ++ dquote ++ str "error" ++ dquote
  ++ str ": _nora_err}, f)".
Proof. reflexivity. Qed.

Example search_filter_splits_and_trims :
  search_filter (Some (str "Blueprint, StaticMesh")) (Some (str "/Game")) =
  JObject
    [(str "classNames",
      JArray [JString (str "Blueprint"); JString (str "StaticMesh")]);
     (str "paths", JArray [JString (str "/Game")])].
Proof. reflexivity. Qed.

Example search_filter_empty : search_filter (Some []) None = JObject [].
Proof. reflexivity. Qed.

(** [ue_describe_object] keeps names, types and descriptions and counts
    the entries. *)
Example describe_object_summary :
  run (ue_describe_object Sample.platform Sample.default_env
         (Sample.constant_world (Sample.reply 200 Sample.describe_answer)
                                (inr []))
         (str "/Game/Maps/Main.Main:PersistentLevel.Cube")) =
  (inr (ok Sample.platform
          (JObject
             [(str "Class", JString (str "/Script/Engine.StaticMeshActor"));
              (str "Name", JString (str "Cube"));
              (str "PropertyCount", JNumber 2);
              (str "Properties",
               JArray
                 [JObject [(str "Name", JString (str "bHidden"));
                           (str "Type", JString (str "bool"));
                           (str "Description",
                            JString (str "Hides the actor"))];
                  JObject [(str "Name", JString (str "Tags"));
                           (str "Type", JString (str "TArray<FName>"))]]);
              (str "FunctionCount", JNumber 1);
              (str "Functions",
               JArray [JObject [(str "Name",
                                 JString (str "K2_DestroyActor"))]])])),
   [EvFetch
      (ue_request Sample.platform Sample.default_env (str "PUT")
         (str "/remote/object/describe")
         (Some (JObject
                  [(str "objectPath",
                    JString (str "/Game/Maps/Main.Main:PersistentLevel.Cube"))])))
      (Sample.reply 200 Sample.describe_answer)]).
Proof. reflexivity. Qed.

(** An empty answer makes [ue] return [null], and reading [Properties]
    of it throws inside the handler's [try]. *)
Example describe_object_empty_answer :
  fst (run (ue_describe_object Sample.platform Sample.default_env
              (Sample.constant_world (Sample.reply 200 []) (inr []))
              (str "/Game/Maps/Main.Main:PersistentLevel.Cube"))) =
  inr (err (Message
              (str "Cannot read properties of null (reading 'Properties')"))).
Proof. reflexivity. Qed.

(* ================================================================== *)
(** ** What the steps do *)

Section Steps.

Variable P : Platform.
Variable env : ProcessEnv.
Variable W : World.

(** [ue] makes one request and returns what [ue_outcome] says. *)
Lemma ue_run (method path : jsstring) (body : option JSValue)
    (log : list Event) :
  ue P env W method path body log =
  (ue_outcome P method path (fetch W log (ue_request P env method path body)),
   log ++ [EvFetch (ue_request P env method path body)
                   (fetch W log (ue_request P env method path body))]).
Proof.
  unfold ue, bind, do_fetch, ue_outcome.
  destruct (fetch W log _) as [e | resp]; [reflexivity |].
  unfold lift at 1.
  destruct (resp_text resp) as [e | t]; [reflexivity |].
  unfold ret at 1.
  destruct (resp_ok resp); cbn [negb]; [| reflexivity].
  unfold try_catch, lift, or_else.
  destruct (JSON_parse P t) as [e | v]; cbn; [| reflexivity].
  destruct t; reflexivity.
Qed.

(** [execPythonWithOutput]: dispatch, settle, read back, surface. *)
Lemma execPythonWithOutput_run (code : jsstring) :
  let req := ue_request P env (str "PUT") (str "/remote/object/call")
                        (Some (harness_call P code)) in
  let o := fetch W [] req in
  let cmd := ssh_command env (RESULT_FILE) in
  let log2 := [EvFetch req o; EvTimeout 200] in
  let x := execSync W log2 cmd 10000 in
  run (execPythonWithOutput P env W code) =
  match ue_outcome P (str "PUT") (str "/remote/object/call") o with
  | inl e => (inl e, [EvFetch req o])
  | inr _ => (capture_outcome P x, log2 ++ [EvExecSync cmd 10000 x])
  end.
Proof.
  cbv zeta. unfold run, execPythonWithOutput.
  unfold bind at 1. rewrite ue_run. cbn [app].
  destruct (ue_outcome P _ _ _) as [e | v]; [reflexivity |].
  unfold bind at 1, setTimeout at 1. cbn [app].
  unfold bind at 1, sshRead, do_execSync. cbn [app].
  unfold capture_outcome.
  destruct (execSync W _ _ _) as [e | raw]; [reflexivity |].
  unfold bind at 1, lift at 1.
  destruct (JSON_parse P raw) as [e | result]; [reflexivity |].
  unfold ret at 1.
  unfold bind at 1, lift at 1.
  destruct (get_prop P result _) as [e | error]; [reflexivity |].
  unfold ret at 1.
  destruct (truthy error).
  - unfold bind, lift.
    destruct (ToString P error) as [e | msg]; reflexivity.
  - unfold bind, lift, or_else.
    destruct (get_prop P result _) as [e | output]; reflexivity.
Qed.

(** A run of [execPythonWithOutput] whose log shows a file read back went
    through all three interactions, and its result is what
    [capture_outcome] makes of that file. *)
Lemma retrieved_run (code cmd : jsstring) (timeout : N) (raw : jsstring) :
  In (EvExecSync cmd timeout (inr raw))
     (snd (run (execPythonWithOutput P env W code))) ->
  exists o,
    run (execPythonWithOutput P env W code) =
    (capture_outcome P (inr raw),
     [EvFetch (ue_request P env (str "PUT") (str "/remote/object/call")
                          (Some (harness_call P code))) o;
      EvTimeout 200;
      EvExecSync (ssh_command env RESULT_FILE) 10000 (inr raw)]).
Proof.
  rewrite execPythonWithOutput_run.
  destruct (ue_outcome P _ _ _) as [e | v]; cbn [snd app In].
  - intros [H | []]. discriminate H.
  - intros [H | [H | [H | []]]]; try discriminate H.
    injection H as _ _ Hx. rewrite Hx. eexists. reflexivity.
Qed.

End Steps.

Section Handlers.

Variable P : Platform.
Variable env : ProcessEnv.
Variable W : World.

(** A handler of the shape [try { return k(await ue(...)) } catch (e)
    { return err(e) }] makes one request and never throws. *)
Lemma one_call_run (method path : jsstring) (body : option JSValue)
    (k : JSValue -> ToolResult) :
  let req := ue_request P env method path body in
  run (catch_err (bind (ue P env W method path body) (fun r => ret (k r)))) =
  (inr (settle k (ue_outcome P method path (fetch W [] req))),
   [EvFetch req (fetch W [] req)]).
Proof.
  cbv zeta. unfold run, catch_err, try_catch, bind.
  rewrite ue_run. cbn [app].
  destruct (ue_outcome P method path _); reflexivity.
Qed.

End Handlers.

(* ================================================================== *)
(** ** The remote invoker *)

(** C4. Whenever [ue] receives a response whose status is not ok, it
    throws an error whose message is [UE], the method, the path, an
    arrow, the status code and a colon, followed by the first 500 code
    units of the body text and by nothing more of the body. *)
Theorem ue_failure_message (P : Platform) (env : ProcessEnv) (W : World)
    (method path : jsstring) (body : option JSValue) (log : list Event)
    (resp : Response) (text : jsstring) :
  fetch W log (ue_request P env method path body) = inr resp ->
  resp_ok resp = false ->
  resp_text resp = inr text ->
  exists snippet,
    fst (ue P env W method path body log) =
      inl (new_Error (str "UE " ++ method ++ str " " ++ path ++ str " "
                      ++ rightwards_arrow ++ str " "
                      ++ N_toString (status resp) ++ str ": " ++ snippet))
    /\ snippet = firstn 500 text
    /\ List.length snippet <= 500
    /\ exists rest, text = snippet ++ rest.
Proof.
  intros Hfetch Hok Htext.
  exists (firstn 500 text).
  rewrite ue_run, Hfetch. unfold ue_outcome. rewrite Htext, Hok.
  repeat split.
  - apply firstn_le_length.
  - exists (skipn 500 text). symmetry. apply firstn_skipn.
Qed.

(** A 404 whose body is 600 times the letter x: the message ends in
    500 of them. *)
Lemma ue_failure_message_witness :
  exists snippet,
    fst (ue Sample.platform Sample.default_env
            (Sample.constant_world (Sample.reply 404 (repeat 120%N 600))
                                   (inr []))
            (str "GET") (str "/remote/info") None []) =
      inl (new_Error (str "UE " ++ str "GET" ++ str " " ++ str "/remote/info"
                      ++ str " " ++ rightwards_arrow ++ str " "
                      ++ N_toString 404 ++ str ": " ++ snippet))
    /\ snippet = firstn 500 (repeat 120%N 600)
    /\ List.length snippet <= 500
    /\ exists rest, repeat 120%N 600 = snippet ++ rest.
Proof.
  apply (ue_failure_message Sample.platform Sample.default_env
           (Sample.constant_world (Sample.reply 404 (repeat 120%N 600))
                                  (inr []))
           (str "GET") (str "/remote/info") None []
           {| status := 404; resp_text := inr (repeat 120%N 600) |}
           (repeat 120%N 600));
    reflexivity.
Defined.

(** C5. Whenever [ue] receives a response whose status is ok, it returns
    the value [JSON.parse] gives for the body text; when the text does
    not parse it returns the text itself, and [null] when the text is
    empty. *)
Theorem ue_success_value (P : Platform) (env : ProcessEnv) (W : World)
    (method path : jsstring) (body : option JSValue) (log : list Event)
    (resp : Response) (text : jsstring) :
  JSON_parse_rejects_empty P ->
  fetch W log (ue_request P env method path body) = inr resp ->
  resp_ok resp = true ->
  resp_text resp = inr text ->
  (forall v, JSON_parse P text = inr v ->
             fst (ue P env W method path body log) = inr v)
  /\ (forall e, JSON_parse P text = inl e -> text <> [] ->
                fst (ue P env W method path body log) = inr (JString text))
  /\ (text = [] -> fst (ue P env W method path body log) = inr JNull).
Proof.
  intros [e0 Hempty] Hfetch Hok Htext.
  rewrite ue_run, Hfetch. unfold ue_outcome. rewrite Htext, Hok. cbn [fst].
  repeat split.
  - intros v Hv. rewrite Hv. reflexivity.
  - intros e He Hne. rewrite He. destruct text; [contradiction | reflexivity].
  - intros ->. rewrite Hempty. reflexivity.
Qed.

(** A JSON body comes back as its value, a plain text as itself, an
    empty body as [null]. *)
Lemma ue_success_value_witness :
  fst (ue Sample.platform Sample.default_env
          (Sample.constant_world
             (Sample.reply 200 Sample.return_value_true) (inr []))
          (str "GET") (str "/remote/info") None []) =
    inr (JObject [(str "ReturnValue", JBool true)])
  /\ fst (ue Sample.platform Sample.default_env
             (Sample.constant_world (Sample.reply 200 (str "OK")) (inr []))
             (str "GET") (str "/remote/info") None []) =
       inr (JString (str "OK"))
  /\ fst (ue Sample.platform Sample.default_env
             (Sample.constant_world (Sample.reply 204 []) (inr []))
             (str "GET") (str "/remote/info") None []) =
       inr JNull.
Proof.
  assert (Hempty : JSON_parse_rejects_empty Sample.platform)
    by (eexists; reflexivity).
  split; [| split].
  - apply (proj1 (ue_success_value Sample.platform Sample.default_env
                    (Sample.constant_world
                       (Sample.reply 200 Sample.return_value_true) (inr []))
                    (str "GET") (str "/remote/info") None []
                    {| status := 200;
                       resp_text := inr Sample.return_value_true |}
                    Sample.return_value_true
                    Hempty eq_refl eq_refl eq_refl)).
    reflexivity.
  - apply (proj1 (proj2 (ue_success_value Sample.platform Sample.default_env
                    (Sample.constant_world
                       (Sample.reply 200 (str "OK")) (inr []))
                    (str "GET") (str "/remote/info") None []
                    {| status := 200; resp_text := inr (str "OK") |}
                    (str "OK")
                    Hempty eq_refl eq_refl eq_refl))
             (new_Error (str "Unexpected token in JSON"))).
    + reflexivity.
    + discriminate.
  - apply (proj2 (proj2 (ue_success_value Sample.platform Sample.default_env
                    (Sample.constant_world (Sample.reply 204 []) (inr []))
                    (str "GET") (str "/remote/info") None []
                    {| status := 204; resp_text := inr [] |} []
                    Hempty eq_refl eq_refl eq_refl))).
    reflexivity.
Defined.

(* ================================================================== *)
(** ** Property access *)

(** C6, as the code has it.  [ue_get_property] issues exactly one
    request: a PUT to [/remote/object/property] whose body is the JSON
    text of [objectPath], [access: READ_ACCESS] and [propertyName], with
    the two names it was given.  When the endpoint answers with an ok
    status and a JSON body, the caller gets a payload without error flag
    whose one text is the value of that body written out again: the
    string itself when the value is a string, and
    [JSON.stringify(value, null, 2)] otherwise.  The handler reshapes
    nothing, but the text is not the body the endpoint sent. *)
Theorem ue_get_property_one_put (P : Platform) (env : ProcessEnv) (W : World)
    (object_path property_name : jsstring) :
  let payload :=
    JObject [(str "objectPath", JString object_path);
             (str "access", JString (str "READ_ACCESS"));
             (str "propertyName", JString property_name)] in
  let req :=
    {| url := UE_BASE P env ++ str "/remote/object/property";
       method := str "PUT";
       headers := [(str "Content-Type", str "application/json")];
       body := Some (JSON_stringify P payload 0) |} in
  snd (run (ue_get_property P env W object_path property_name)) =
    [EvFetch req (fetch W [] req)]
  /\ forall resp body_text v,
       fetch W [] req = inr resp ->
       resp_ok resp = true ->
       resp_text resp = inr body_text ->
       JSON_parse P body_text = inr v ->
       fst (run (ue_get_property P env W object_path property_name)) =
         inr {| content :=
                  [{| type := str "text";
                      text := match v with
                              | JString s => s
                              | _ => JSON_stringify P v 2
                              end |}];
                isError := false |}.
Proof.
  cbv zeta. unfold ue_get_property. rewrite one_call_run.
  split; [reflexivity |].
  intros resp body_text v Hfetch Hok Htext Hv. cbn [fst].
  unfold ue_request at 1. cbn [option_map]. rewrite Hfetch.
  unfold ue_outcome. rewrite Htext, Hok, Hv. reflexivity.
Qed.

(** Reading [RelativeLocation] of an actor: the compact body of the
    engine comes back indented by two spaces. *)
Lemma ue_get_property_one_put_witness :
  let W := Sample.constant_world
             (Sample.reply 200 Sample.relative_location) (inr []) in
  fst (run (ue_get_property Sample.platform Sample.default_env W
              (str "/Game/Maps/Main.Main:PersistentLevel.Cube")
              (str "RelativeLocation"))) =
    inr {| content :=
             [{| type := str "text";
                 text :=
                   str "{" ++ newline
                   ++ str "  " ++ dquote ++ str "RelativeLocation" ++ dquote
                   ++ str ": {" ++ newline
                   ++ str "    " ++ dquote ++ str "X" ++ dquote
                   ++ str ": 100," ++ newline
                   ++ str "    " ++ dquote ++ str "Y" ++ dquote
                   ++ str ": 0," ++ newline
                   ++ str "    " ++ dquote ++ str "Z" ++ dquote
                   ++ str ": 50" ++ newline
                   ++ str "  }" ++ newline
                   ++ str "}" |}];
           isError := false |}.
Proof.
  intro W.
  apply (proj2 (ue_get_property_one_put Sample.platform Sample.default_env W
                  (str "/Game/Maps/Main.Main:PersistentLevel.Cube")
                  (str "RelativeLocation"))
           {| status := 200; resp_text := inr Sample.relative_location |}
           Sample.relative_location
           (JObject
              [(str "RelativeLocation",
                JObject [(str "X", JNumber 100); (str "Y", JNumber 0);
                         (str "Z", JNumber 50)])]));
    reflexivity.
Defined.

(** C6 as stated fails on the text that comes back.  A body that is the
    JSON string [true], in its quotes, comes back as the four letters
    without them, which read as JSON are the boolean and not the string
    the endpoint sent; and a compact JSON object comes back indented,
    so as another text than the body. *)
Lemma ue_get_property_text_is_not_the_body :
  let quoted := dquote ++ str "true" ++ dquote in
  (JSON_parse Sample.platform quoted = inr (JString (str "true"))
   /\ fst (run (ue_get_property Sample.platform Sample.default_env
                  (Sample.constant_world (Sample.reply 200 quoted) (inr []))
                  (str "/Game/Maps/Main.Main:PersistentLevel.Cube")
                  (str "ActorLabel"))) =
        inr {| content := [{| type := str "text"; text := str "true" |}];
               isError := false |}
   /\ str "true" <> quoted
   /\ JSON_parse Sample.platform (str "true") = inr (JBool true))
  /\ (exists r,
        fst (run (ue_get_property Sample.platform Sample.default_env
                    (Sample.constant_world
                       (Sample.reply 200 Sample.relative_location) (inr []))
                    (str "/Game/Maps/Main.Main:PersistentLevel.Cube")
                    (str "RelativeLocation"))) = inr r
        /\ isError r = false
        /\ map text (content r) <> [Sample.relative_location]).
Proof.
  cbv zeta. split.
  - split; [reflexivity | split; [reflexivity | split; [discriminate |]]].
    reflexivity.
  - eexists. split; [reflexivity | split; [reflexivity |]].
    discriminate.
Qed.


(** C9. When the [value] given to [ue_set_property] is not JSON, the
    handler does not reject it: it issues its one PUT to
    [/remote/object/property] with [propertyValue] set to the string
    [value] itself, and its result is whatever that request yields; in
    particular it is no error when the endpoint answers ok.
    [ue_call_function], given the same non-empty string as [parameters],
    returns the error payload and sends nothing. *)
Theorem ue_set_property_forwards_raw_string (P : Platform) (env : ProcessEnv)
    (W : World) (object_path property_name value : jsstring) (e : Exn) :
  JSON_parse P value = inl e ->
  let payload :=
    JObject [(str "objectPath", JString object_path);
             (str "access", JString (str "WRITE_TRANSACTION_ACCESS"));
             (str "propertyName", JString property_name);
             (str "propertyValue", JString value)] in
  let req :=
    {| url := UE_BASE P env ++ str "/remote/object/property";
       method := str "PUT";
       headers := [(str "Content-Type", str "application/json")];
       body := Some (JSON_stringify P payload 0) |} in
  run (ue_set_property P env W object_path property_name value) =
    (inr (settle (ok P)
            (ue_outcome P (str "PUT") (str "/remote/object/property")
                        (fetch W [] req))),
     [EvFetch req (fetch W [] req)])
  /\ (forall resp text,
        fetch W [] req = inr resp -> resp_ok resp = true ->
        resp_text resp = inr text ->
        exists r,
          fst (run (ue_set_property P env W object_path property_name value))
            = inr r /\ isError r = false)
  /\ (value <> [] ->
      forall function_name generate_transaction,
        run (ue_call_function P env W object_path function_name
                              (Some value) generate_transaction) =
          (inr (err (Message (str "Invalid JSON in parameters: " ++ value))),
           [])).
Proof.
  intros He payload req.
  assert (Hrun :
    run (ue_set_property P env W object_path property_name value) =
    (inr (settle (ok P)
            (ue_outcome P (str "PUT") (str "/remote/object/property")
                        (fetch W [] req))),
     [EvFetch req (fetch W [] req)])).
  { unfold ue_set_property, run, catch_err.
    unfold try_catch at 1, bind at 1, try_catch at 1, lift at 1.
    rewrite He. unfold throw at 1, ret at 1.
    unfold bind at 1. rewrite ue_run. cbn [app].
    subst req payload. unfold ue_request. cbn [option_map].
    destruct (ue_outcome P _ _ _); reflexivity. }
  split; [exact Hrun | split].
  - intros resp text Hfetch Hok Htext.
    rewrite Hrun, Hfetch. unfold ue_outcome. rewrite Htext, Hok. cbn [fst].
    destruct (JSON_parse P text) as [e' | v]; eexists; (split; [reflexivity |]);
      reflexivity.
  - intros Hne function_name generate_transaction.
    unfold ue_call_function, run, catch_err, try_catch.
    destruct value as [| c value']; [contradiction |].
    cbn [is_empty]. rewrite He. reflexivity.
Qed.

(** Setting a label to the bare word [Cube]: not JSON, sent as a
    string. *)
Lemma ue_set_property_forwards_raw_string_witness :
  let payload :=
    JObject [(str "objectPath", JString (str "/Game/Maps/Main.Main:PersistentLevel.Cube"));
             (str "access", JString (str "WRITE_TRANSACTION_ACCESS"));
             (str "propertyName", JString (str "ActorLabel"));
             (str "propertyValue", JString (str "Cube"))] in
  let req :=
    {| url := UE_BASE Sample.platform Sample.default_env
              ++ str "/remote/object/property";
       method := str "PUT";
       headers := [(str "Content-Type", str "application/json")];
       body := Some (JSON_stringify Sample.platform payload 0) |} in
  run (ue_set_property Sample.platform Sample.default_env Sample.accepting
         (str "/Game/Maps/Main.Main:PersistentLevel.Cube")
         (str "ActorLabel") (str "Cube")) =
    (inr (settle (ok Sample.platform)
            (ue_outcome Sample.platform (str "PUT")
                        (str "/remote/object/property")
                        (fetch Sample.accepting [] req))),
     [EvFetch req (fetch Sample.accepting [] req)]).
Proof.
  exact (proj1 (ue_set_property_forwards_raw_string
                  Sample.platform Sample.default_env Sample.accepting
                  (str "/Game/Maps/Main.Main:PersistentLevel.Cube")
                  (str "ActorLabel") (str "Cube")
                  (new_Error (str "Unexpected token in JSON")) eq_refl)).
Defined.

(* ================================================================== *)
(** ** Caller-supplied JSON *)

(** C7, as the handlers have it.  [ue_call_function] with a non-empty
    [parameters] string that does not parse, and [ue_batch] with a
    [requests] string that does not parse, return the error payload that
    quotes the string (its first 200 code units for [ue_batch]) and
    perform no I/O at all. *)
Theorem invalid_json_rejected_before_transport (P : Platform)
    (env : ProcessEnv) (W : World) :
  (forall object_path function_name parameters generate_transaction e,
     parameters <> [] ->
     JSON_parse P parameters = inl e ->
     run (ue_call_function P env W object_path function_name
                           (Some parameters) generate_transaction) =
       (inr {| content :=
                 [{| type := str "text";
                     text := str "Error: "
                             ++ str "Invalid JSON in parameters: "
                             ++ parameters |}];
               isError := true |},
        []))
  /\ (forall requests e,
        JSON_parse P requests = inl e ->
        run (ue_batch P env W requests) =
          (inr {| content :=
                    [{| type := str "text";
                        text := str "Error: " ++ str "Invalid JSON array: "
                                ++ firstn 200 requests |}];
                  isError := true |},
           [])).
Proof.
  split.
  - intros object_path function_name parameters generate_transaction e Hne He.
    unfold ue_call_function, run, catch_err, try_catch.
    destruct parameters as [| c s]; [contradiction |].
    cbn [is_empty]. rewrite He. reflexivity.
  - intros requests e He.
    unfold ue_batch, run, catch_err, try_catch. rewrite He. reflexivity.
Qed.

(** A truncated object as [parameters], a bare word as [requests]. *)
Lemma invalid_json_rejected_before_transport_witness :
  run (ue_call_function Sample.platform Sample.default_env Sample.accepting
         (str "/Game/Maps/Main.Main:PersistentLevel.Cube")
         (str "K2_SetActorLocation") (Some (str "{NewLocation")) true) =
    (inr {| content :=
              [{| type := str "text";
                  text := str "Error: " ++ str "Invalid JSON in parameters: "
                          ++ str "{NewLocation" |}];
            isError := true |},
     [])
  /\ run (ue_batch Sample.platform Sample.default_env Sample.accepting
            (str "requests")) =
       (inr {| content :=
                 [{| type := str "text";
                     text := str "Error: " ++ str "Invalid JSON array: "
                             ++ firstn 200 (str "requests") |}];
               isError := true |},
        []).
Proof.
  split.
  - apply (proj1 (invalid_json_rejected_before_transport
                    Sample.platform Sample.default_env Sample.accepting)
             (str "/Game/Maps/Main.Main:PersistentLevel.Cube")
             (str "K2_SetActorLocation") (str "{NewLocation") true
             (new_Error (str "Unexpected token in JSON"))).
    + discriminate.
    + reflexivity.
  - apply (proj2 (invalid_json_rejected_before_transport
                    Sample.platform Sample.default_env Sample.accepting)
             (str "requests") (new_Error (str "Unexpected token in JSON"))).
    reflexivity.
Defined.

(** C7 as stated fails on the empty string: it is not JSON, yet
    [ue_call_function] takes it for absent parameters, sends the call
    with [parameters: {}] and returns the engine's answer. *)
Lemma ue_call_function_empty_parameters_sent :
  let payload :=
    JObject [(str "objectPath", JString (str "/Game/Maps/Main.Main:PersistentLevel.Cube"));
             (str "functionName", JString (str "K2_DestroyActor"));
             (str "parameters", JObject []);
             (str "generateTransaction", JBool true)] in
  let req :=
    {| url := str "http://127.0.0.1:30010/remote/object/call";
       method := str "PUT";
       headers := [(str "Content-Type", str "application/json")];
       body := Some (JSON_stringify Sample.platform payload 0) |} in
  (exists e, JSON_parse Sample.platform [] = inl e)
  /\ run (ue_call_function Sample.platform Sample.default_env Sample.accepting
            (str "/Game/Maps/Main.Main:PersistentLevel.Cube")
            (str "K2_DestroyActor") (Some []) true) =
       (inr (ok Sample.platform (JObject [(str "ReturnValue", JBool true)])),
        [EvFetch req (Sample.reply 200 Sample.return_value_true)])
  /\ isError (ok Sample.platform (JObject [(str "ReturnValue", JBool true)]))
     = false.
Proof.
  cbv zeta. split; [eexists; reflexivity | split; reflexivity].
Qed.

(** C10. When the [requests] given to [ue_batch] parse as JSON, whatever
    the shape of the value, an array or not, the handler issues its one
    PUT to [/remote/batch] with that value under [requests], and its
    result is whatever that request yields: nothing but well-formedness
    is checked before the transport. *)
Theorem ue_batch_forwards_any_json (P : Platform) (env : ProcessEnv)
    (W : World) (requests : jsstring) (parsed : JSValue) :
  JSON_parse P requests = inr parsed ->
  let req :=
    {| url := UE_BASE P env ++ str "/remote/batch";
       method := str "PUT";
       headers := [(str "Content-Type", str "application/json")];
       body := Some (JSON_stringify P
                       (JObject [(str "requests", parsed)]) 0) |} in
  run (ue_batch P env W requests) =
    (inr (settle (ok P)
            (ue_outcome P (str "PUT") (str "/remote/batch") (fetch W [] req))),
     [EvFetch req (fetch W [] req)]).
Proof.
  intros Hparse req. unfold ue_batch. rewrite Hparse.
  rewrite one_call_run. reflexivity.
Qed.

(** One request object instead of an array of them: sent as it is. *)
Lemma ue_batch_forwards_any_json_witness :
  let parsed :=
    JObject
      [(str "objectPath", JString (str "/Game/Maps/Main.Main:PersistentLevel.Cube"));
       (str "access", JString (str "READ_ACCESS"));
       (str "propertyName", JString (str "RelativeLocation"))] in
  let req :=
    {| url := UE_BASE Sample.platform Sample.default_env
              ++ str "/remote/batch";
       method := str "PUT";
       headers := [(str "Content-Type", str "application/json")];
       body := Some (JSON_stringify Sample.platform
                       (JObject [(str "requests", parsed)]) 0) |} in
  run (ue_batch Sample.platform Sample.default_env Sample.accepting
         Sample.single_request) =
    (inr (settle (ok Sample.platform)
            (ue_outcome Sample.platform (str "PUT") (str "/remote/batch")
                        (fetch Sample.accepting [] req))),
     [EvFetch req (fetch Sample.accepting [] req)]).
Proof.
  exact (ue_batch_forwards_any_json
           Sample.platform Sample.default_env Sample.accepting
           Sample.single_request _ eq_refl).
Defined.

(* ================================================================== *)
(** ** Trimming the template *)

Lemma trim_start_newline (s : jsstring) :
  trim_start (newline ++ s) = trim_start s.
Proof. reflexivity. Qed.

(** [trim] takes the line feeds off a text that is framed by them and
    has no white space at its own ends. *)
Lemma trim_framed (text : jsstring) (c d : N) (r r' : jsstring) :
  text = c :: r ->
  text = r' ++ [d] ->
  is_white_space c = false ->
  is_white_space d = false ->
  trim (newline ++ text ++ newline) = text.
Proof.
  intros Hhead Hlast Hc Hd. unfold trim.
  rewrite trim_start_newline.
  rewrite Hhead at 1. cbn [app trim_start]. rewrite Hc.
  change (c :: r ++ newline) with ((c :: r) ++ newline).
  rewrite <- Hhead, Hlast.
  rewrite rev_app_distr. cbn [rev newline app].
  change (trim_start (10%N :: rev (r' ++ [d])))
    with (trim_start (rev (r' ++ [d]))).
  rewrite rev_app_distr. cbn [rev app trim_start]. rewrite Hd.
  change (d :: rev r') with ([d] ++ rev r').
  rewrite rev_app_distr, rev_involutive. reflexivity.
Qed.

(** Rewrites [wrapper P code] into the script it is, with the outer line
    feeds of the template taken off. *)
Ltac unfold_wrapper :=
  unfold wrapper;
  change (replace_all 92 47 RESULT_FILE)
    with (str "C:/tmp/nora_mcp_result.json");
  match goal with
  | |- trim (newline ++ ?body) = ?script =>
      replace body with (script ++ newline)
        by (repeat rewrite <- app_assoc; reflexivity);
      eapply (trim_framed script 105%N 41%N);
        [ reflexivity
        | change (str ": _nora_err}, f)") with (str ": _nora_err}, f" ++ [41%N]);
          repeat rewrite app_assoc; reflexivity
        | reflexivity
        | reflexivity ]
  end.

(* ================================================================== *)
(** ** The capture protocol *)

(** The test on [error] is one of truthiness.  When the record read back
    holds a truthy value under [error], [execPythonWithOutput] throws
    and returns no output; when that value is a string, which it then is
    not empty, the message of the error thrown is that string. *)
Theorem capture_error_thrown (P : Platform) (env : ProcessEnv) (W : World)
    (code cmd : jsstring) (timeout : N) (raw : jsstring)
    (props : list (jsstring * JSValue)) :
  In (EvExecSync cmd timeout (inr raw))
     (snd (run (execPythonWithOutput P env W code))) ->
  JSON_parse P raw = inr (JObject props) ->
  truthy (lookup (str "error") props) = true ->
  (exists e, fst (run (execPythonWithOutput P env W code)) = inl e)
  /\ (forall trace,
        lookup (str "error") props = JString trace ->
        trace <> []
        /\ fst (run (execPythonWithOutput P env W code))
           = inl (new_Error trace)).
Proof.
  intros Hin Hparse Htruthy.
  destruct (retrieved_run P env W code cmd timeout raw Hin) as [o ->].
  cbn [fst]. unfold capture_outcome. rewrite Hparse.
  cbn [get_prop]. rewrite Htruthy.
  split.
  - destruct (ToString P _) as [e | msg]; eexists; reflexivity.
  - intros trace Htrace. rewrite Htrace in *. cbn [ToString].
    split; [| reflexivity].
    intros ->. discriminate Htruthy.
Qed.

(** A division by zero in the user's code: the trace is the message. *)
Lemma capture_error_thrown_witness :
  let W := Sample.capturing
             (Sample.json_dump_record [] (Some Sample.zero_division_trace)) in
  Sample.zero_division_trace <> []
  /\ fst (run (execPythonWithOutput Sample.platform Sample.default_env W
                 (str "1/0")))
     = inl (new_Error Sample.zero_division_trace).
Proof.
  intro W.
  apply (proj2 (capture_error_thrown
                  Sample.platform Sample.default_env W (str "1/0")
                  (ssh_command Sample.default_env RESULT_FILE) 10000
                  (Sample.json_dump_record [] (Some Sample.zero_division_trace))
                  [(str "output", JString []);
                   (str "error", JString Sample.zero_division_trace)]
                  (or_intror (or_intror (or_introl eq_refl)))
                  eq_refl eq_refl)).
  reflexivity.
Defined.

(** A record that the harness never writes, with the empty string under
    [error]: nothing is thrown and the output is returned. *)
Lemma capture_empty_error_returns_output :
  let raw := Sample.json_dump_record (str "x") (Some []) in
  let W := Sample.capturing raw in
  JSON_parse Sample.platform raw =
    inr (JObject [(str "output", JString (str "x")); (str "error", JString [])])
  /\ JString [] <> JNull
  /\ In (EvExecSync (ssh_command Sample.default_env RESULT_FILE) 10000
                    (inr raw))
        (snd (run (execPythonWithOutput Sample.platform Sample.default_env W
                     (str "print('x', end='')"))))
  /\ fst (run (execPythonWithOutput Sample.platform Sample.default_env W
                 (str "print('x', end='')")))
     = inr (JString (str "x")).
Proof.
  cbv zeta. split; [reflexivity | split; [discriminate | split]].
  - right. right. left. reflexivity.
  - reflexivity.
Qed.



(** C2. When the record read back has [error: null] and [output] the
    empty string, [execPythonWithOutput] returns the sentinel
    [(no output)], which is not the empty string. *)
Theorem capture_no_output_sentinel (P : Platform) (env : ProcessEnv)
    (W : World) (code cmd : jsstring) (timeout : N) (raw : jsstring)
    (props : list (jsstring * JSValue)) :
  In (EvExecSync cmd timeout (inr raw))
     (snd (run (execPythonWithOutput P env W code))) ->
  JSON_parse P raw = inr (JObject props) ->
  lookup (str "error") props = JNull ->
  lookup (str "output") props = JString [] ->
  fst (run (execPythonWithOutput P env W code))
    = inr (JString (str "(no output)"))
  /\ str "(no output)" <> [].
Proof.
  intros Hin Hparse Herror Houtput.
  destruct (retrieved_run P env W code cmd timeout raw Hin) as [o ->].
  cbn [fst]. unfold capture_outcome. rewrite Hparse.
  cbn [get_prop]. rewrite Herror, Houtput. cbn [truthy is_empty negb].
  split; [reflexivity | discriminate].
Qed.

(** An assignment prints nothing. *)
Lemma capture_no_output_sentinel_witness :
  let W := Sample.capturing (Sample.json_dump_record [] None) in
  fst (run (execPythonWithOutput Sample.platform Sample.default_env W
              (str "x = 1")))
    = inr (JString (str "(no output)"))
  /\ str "(no output)" <> [].
Proof.
  intro W.
  apply (capture_no_output_sentinel
           Sample.platform Sample.default_env W (str "x = 1")
           (ssh_command Sample.default_env RESULT_FILE) 10000
           (Sample.json_dump_record [] None)
           [(str "output", JString []); (str "error", JNull)]
           (or_intror (or_intror (or_introl eq_refl)))
           eq_refl eq_refl eq_refl).
Defined.

(** C3. When the endpoint accepts the dispatch and the file read back is
    the record of code that printed [output] and raised nothing,
    [execPythonWithOutput] does exactly this, in this order: one PUT to
    [/remote/object/call] that asks [ExecutePythonCommand] to run the
    harness, which is the script below with the caller's code in it as
    the JSON string literal handed to [exec]; one wait of 200
    milliseconds; one ssh read of the result file.  It returns
    [output], which the tool [ue_exec_python] hands to its caller as the
    text of a success payload. *)
Theorem capture_sequence (P : Platform) (env : ProcessEnv) (W : World)
    (code : jsstring) (resp : Response) (text raw : jsstring)
    (props : list (jsstring * JSValue)) (output : jsstring) :
  let harness :=
    str "import sys, io, json, traceback" ++ newline
    ++ str "_nora_stdout = sys.stdout" ++ newline
    ++ str "_nora_buf = io.StringIO()" ++ newline
    ++ str "sys.stdout = _nora_buf" ++ newline
    ++ str "_nora_err = None" ++ newline
    ++ str "try:" ++ newline
    ++ str "    exec(" ++ JSON_stringify P (JString code) 0 ++ str ")"
    ++ newline
    ++ str "except Exception as e:" ++ newline
    ++ str "    _nora_err = traceback.format_exc()" ++ newline
    ++ str "finally:" ++ newline
    ++ str "    sys.stdout = _nora_stdout" ++ newline
    ++ str "    _nora_out = _nora_buf.getvalue()" ++ newline
    ++ str "    with open("
    ++ JSON_stringify P (JString (str "C:/tmp/nora_mcp_result.json")) 0
    ++ str ", 'w', encoding='utf-8') as f:" ++ newline
    ++ str "        json.dump({" ++ dquote ++ str "output" ++ dquote
    ++ str ": _nora_out, " ++ dquote ++ str "error" ++ dquote
    ++ str ": _nora_err}, f)" in
  let payload :=
    JObject
      [(str "objectPath",
        JString (str "/Script/PythonScriptPlugin.Default__PythonScriptLibrary"));
       (str "functionName", JString (str "ExecutePythonCommand"));
       (str "parameters",
        JObject [(str "PythonCommand", JString harness)])] in
  let req :=
    {| url := UE_BASE P env ++ str "/remote/object/call";
       method := str "PUT";
       headers := [(str "Content-Type", str "application/json")];
       body := Some (JSON_stringify P payload 0) |} in
  let cmd :=
    str "ssh -o ConnectTimeout=3 -o StrictHostKeyChecking=no "
    ++ UE_SSH_USER env ++ str "@" ++ UE_HOST env ++ str " " ++ dquote
    ++ str "type C:\tmp\nora_mcp_result.json" ++ dquote in
  fetch W [] req = inr resp ->
  resp_ok resp = true ->
  resp_text resp = inr text ->
  execSync W [EvFetch req (inr resp); EvTimeout 200] cmd 10000 = inr raw ->
  JSON_parse P raw = inr (JObject props) ->
  lookup (str "error") props = JNull ->
  lookup (str "output") props = JString output ->
  output <> [] ->
  run (execPythonWithOutput P env W code) =
    (inr (JString output),
     [EvFetch req (inr resp); EvTimeout 200; EvExecSync cmd 10000 (inr raw)])
  /\ run (ue_exec_python P env W code) =
       (inr {| content := [{| type := str "text"; text := output |}];
               isError := false |},
        [EvFetch req (inr resp); EvTimeout 200;
         EvExecSync cmd 10000 (inr raw)]).
Proof.
  intros harness.
  assert (Hw : wrapper P code = harness) by (subst harness; unfold_wrapper).
  clearbody harness. subst harness.
  intros payload req cmd Hfetch Hok Htext Hexec Hparse Herror Houtput Hne.
  assert (Hrun :
    run (execPythonWithOutput P env W code) =
    (inr (JString output),
     [EvFetch req (inr resp); EvTimeout 200; EvExecSync cmd 10000 (inr raw)]));
    [| split; [exact Hrun |];
       unfold ue_exec_python, run, catch_err, try_catch, bind;
       change (execPythonWithOutput P env W code [])
         with (run (execPythonWithOutput P env W code));
       rewrite Hrun; reflexivity].
  rewrite execPythonWithOutput_run.
  change (ue_request P env (str "PUT") (str "/remote/object/call")
            (Some (harness_call P code))) with req.
  change (ssh_command env RESULT_FILE) with cmd.
  rewrite Hfetch. unfold ue_outcome at 1. rewrite Htext, Hok.
  assert (Hrest :
    capture_outcome P (execSync W [EvFetch req (inr resp); EvTimeout 200]
                                cmd 10000) = inr (JString output)).
  { rewrite Hexec. unfold capture_outcome. rewrite Hparse.
    cbn [get_prop]. rewrite Herror, Houtput. cbn [truthy].
    destruct output; [contradiction | reflexivity]. }
  rewrite Hrest, Hexec.
  destruct (JSON_parse P text); reflexivity.
Qed.

(** [print('hi')]: the harness goes out with the code quoted in it, the
    file holds [hi] and a line feed, and that is what comes back. *)
Lemma capture_sequence_witness :
  let raw := Sample.json_dump_record (str "hi" ++ newline) None in
  let W := Sample.capturing raw in
  let harness :=
    str "import sys, io, json, traceback" ++ newline
    ++ str "_nora_stdout = sys.stdout" ++ newline
    ++ str "_nora_buf = io.StringIO()" ++ newline
    ++ str "sys.stdout = _nora_buf" ++ newline
    ++ str "_nora_err = None" ++ newline
    ++ str "try:" ++ newline
    ++ str "    exec(" ++ dquote ++ str "print('hi')" ++ dquote ++ str ")"
    ++ newline
    ++ str "except Exception as e:" ++ newline
    ++ str "    _nora_err = traceback.format_exc()" ++ newline
    ++ str "finally:" ++ newline
    ++ str "    sys.stdout = _nora_stdout" ++ newline
    ++ str "    _nora_out = _nora_buf.getvalue()" ++ newline
    ++ str "    with open(" ++ dquote ++ str "C:/tmp/nora_mcp_result.json"
    ++ dquote ++ str ", 'w', encoding='utf-8') as f:" ++ newline
    ++ str "        json.dump({" ++ dquote ++ str "output" ++ dquote
    ++ str ": _nora_out, " ++ dquote ++ str "error" ++ dquote
    ++ str ": _nora_err}, f)" in
  let req :=
    {| url := str "http://127.0.0.1:30010/remote/object/call";
       method := str "PUT";
       headers := [(str "Content-Type", str "application/json")];
       body :=
         Some (JSON_stringify Sample.platform
                 (JObject
                    [(str "objectPath",
                      JString (str "/Script/PythonScriptPlugin.Default__PythonScriptLibrary"));
                     (str "functionName",
                      JString (str "ExecutePythonCommand"));
                     (str "parameters",
                      JObject [(str "PythonCommand", JString harness)])])
                 0) |} in
  let cmd :=
    str "ssh -o ConnectTimeout=3 -o StrictHostKeyChecking=no claude@127.0.0.1 "
    ++ dquote ++ str "type C:\tmp\nora_mcp_result.json" ++ dquote in
  run (execPythonWithOutput Sample.platform Sample.default_env W
         (str "print('hi')")) =
    (inr (JString (str "hi" ++ newline)),
     [EvFetch req (Sample.reply 200 Sample.return_value_true);
      EvTimeout 200;
      EvExecSync cmd 10000 (inr raw)])
  /\ run (ue_exec_python Sample.platform Sample.default_env W
            (str "print('hi')")) =
       (inr {| content :=
                 [{| type := str "text"; text := str "hi" ++ newline |}];
               isError := false |},
        [EvFetch req (Sample.reply 200 Sample.return_value_true);
         EvTimeout 200;
         EvExecSync cmd 10000 (inr raw)]).
Proof.
  intros raw W harness req cmd.
  apply (capture_sequence
           Sample.platform Sample.default_env W (str "print('hi')")
           {| status := 200; resp_text := inr Sample.return_value_true |}
           Sample.return_value_true raw
           [(str "output", JString (str "hi" ++ newline)); (str "error", JNull)]
           (str "hi" ++ newline));
    try reflexivity.
  discriminate.
Defined.

(* ================================================================== *)
(** ** The operation boundary *)

Create HintDb quiet.

Lemma quiet_ret {A} (a : A) : quiet (ret a).
Proof. intro log. reflexivity. Qed.

Lemma quiet_throw {A} (e : Exn) : quiet (@throw A e).
Proof. intro log. reflexivity. Qed.

Lemma quiet_lift {A} (r : Exn + A) : quiet (lift r).
Proof. destruct r; intro log; reflexivity. Qed.

Lemma quiet_bind {A B} (m : M A) (k : A -> M B) :
  quiet m -> (forall a, quiet (k a)) -> quiet (bind m k).
Proof.
  intros Hm Hk log. unfold bind.
  specialize (Hm log). destruct (m log) as [[e | a] log']; cbn [snd] in *.
  - exact Hm.
  - rewrite Hk. exact Hm.
Qed.

#[local] Hint Resolve quiet_ret quiet_throw quiet_lift quiet_bind : quiet.

Section Boundary.

Variable P : Platform.
Variable env : ProcessEnv.
Variable W : World.

Lemma quiet_mapM {A B} (f : A -> M B) (xs : list A) :
  (forall a, quiet (f a)) -> quiet (mapM f xs).
Proof.
  intro Hf. induction xs as [| x r IH]; cbn [mapM]; auto with quiet.
Qed.

Lemma quiet_array_map (name : jsstring) (v : JSValue)
    (f : JSValue -> M JSValue) :
  (forall a, quiet (f a)) -> quiet (array_map P name v f).
Proof.
  intro Hf. pose proof (fun xs => quiet_mapM f xs Hf).
  destruct v; cbn [array_map]; auto with quiet.
Qed.

Lemma quiet_describe_property (p : JSValue) : quiet (describe_property P p).
Proof. unfold describe_property. auto 10 with quiet. Qed.

Lemma quiet_describe_function (f : JSValue) : quiet (describe_function P f).
Proof. unfold describe_function. auto 10 with quiet. Qed.

Lemma quiet_compact_asset (a : JSValue) : quiet (compact_asset P a).
Proof. unfold compact_asset. auto 10 with quiet. Qed.

(** A step fails exactly when [ue] throws on its answer. *)
Lemma step_failed_fetch (method path : jsstring) (req : Request)
    (o : Exn + Response) :
  step_failed P (EvFetch req o) = true <->
  exists e, ue_outcome P method path o = inl e.
Proof.
  unfold step_failed, ue_outcome.
  destruct o as [e | resp].
  - split; [eexists; reflexivity | reflexivity].
  - destruct (resp_text resp) as [e | text].
    + split; [eexists; reflexivity | reflexivity].
    + destruct (resp_ok resp); cbn [negb].
      * split; [discriminate |].
        intros [e He]. destruct (JSON_parse P text); discriminate He.
      * split; [eexists; reflexivity | reflexivity].
Qed.

(** A handler that awaits [ue] once and then computes without I/O. *)
Lemma call_then_run (method path : jsstring) (body : option JSValue)
    (k : JSValue -> M ToolResult) :
  (forall v, quiet (k v)) ->
  RunShape P (run (catch_err (bind (ue P env W method path body) k))).
Proof.
  intro Hk. unfold run, catch_err, try_catch, bind.
  rewrite ue_run. cbn [app].
  destruct (ue_outcome P method path _) as [e | v] eqn:Hout.
  - apply shape_one_request with (method := method) (path := path).
    intros e' He'. rewrite Hout in He'. injection He' as ->. reflexivity.
  - specialize (Hk v [EvFetch (ue_request P env method path body)
                        (fetch W [] (ue_request P env method path body))]).
    destruct (k v _) as [[e | r] log']; cbn [snd] in Hk; subst log';
      apply shape_one_request with (method := method) (path := path);
      intros e' He'; rewrite Hout in He'; discriminate He'.
Qed.

(** A handler that returns without awaiting anything. *)
Lemma return_run (r : ToolResult) : RunShape P (run (catch_err (ret r))).
Proof. apply shape_no_io. Qed.

(** A handler that awaits [execPythonWithOutput] and returns its output. *)
Lemma capture_then_run (code : jsstring) :
  RunShape P
    (run (catch_err (bind (execPythonWithOutput P env W code)
                          (fun output => ret (ok P output))))).
Proof.
  unfold run, catch_err, try_catch, bind.
  change (execPythonWithOutput P env W code [])
    with (run (execPythonWithOutput P env W code)).
  rewrite execPythonWithOutput_run.
  destruct (ue_outcome P _ _ _) as [e | v] eqn:Hout.
  - apply shape_one_request
      with (method := str "PUT") (path := str "/remote/object/call").
    intros e' He'. rewrite Hout in He'. injection He' as ->. reflexivity.
  - cbn [app].
    match goal with
    | |- context [capture_outcome P ?x] => set (X := x)
    end.
    destruct (capture_outcome P X) as [e | out] eqn:Hc; unfold ret.
    + replace (err (Caught e)) with (settle (ok P) (capture_outcome P X))
        by (rewrite Hc; reflexivity).
      eapply shape_capture. exact Hout.
    + replace (ok P out) with (settle (ok P) (capture_outcome P X))
        by (rewrite Hc; reflexivity).
      eapply shape_capture. exact Hout.
Qed.

(** Every call of a 0.2.0 tool takes one of the three courses. *)
Lemma handle_shape (c : ToolCall) : RunShape P (run (handle P env W c)).
Proof.
  destruct c as [o p | o p v | o f ps g | o | q cn pf | | cmd | code | rs | ];
    cbn [handle].
  - apply call_then_run. auto with quiet.
  - unfold ue_set_property.
    replace (try_catch (lift (JSON_parse P v)) (fun _ => ret (JString v)))
      with (ret (A := JSValue)
              (match JSON_parse P v with
               | inr parsed => parsed
               | inl _ => JString v
               end))
      by (destruct (JSON_parse P v); reflexivity).
    apply (call_then_run (str "PUT") (str "/remote/object/property") _
             (fun r => ret (ok P r))).
    auto with quiet.
  - unfold ue_call_function, call_function_request.
    destruct ps as [s |].
    + destruct (is_empty s).
      * apply call_then_run. auto with quiet.
      * destruct (JSON_parse P s).
        -- apply return_run.
        -- apply call_then_run. auto with quiet.
    + apply call_then_run. auto with quiet.
  - apply call_then_run. intro raw.
    pose proof quiet_describe_property. pose proof quiet_describe_function.
    pose proof quiet_array_map.
    auto 20 with quiet.
  - apply call_then_run. intro raw.
    pose proof quiet_compact_asset. pose proof quiet_array_map.
    auto 20 with quiet.
  - apply capture_then_run.
  - apply call_then_run. auto with quiet.
  - apply capture_then_run.
  - unfold ue_batch. destruct (JSON_parse P rs).
    + apply return_run.
    + apply call_then_run. auto with quiet.
  - apply call_then_run. auto with quiet.
Qed.

Lemma err_is_failure_payload (a : ErrArg) : is_failure_payload (err a).
Proof. split; [reflexivity | eexists; reflexivity]. Qed.

(** Each course keeps the policy and is single-attempt. *)
Lemma shape_policy (out : (Exn + ToolResult) * list Event) :
  RunShape P out ->
  boundary_policy P out
  /\ count is_fetch (snd out) <= 1
  /\ count is_timeout (snd out) <= 1
  /\ count is_execSync (snd out) <= 1.
Proof.
  intros [r | r method path req o Hr | method path req o v cmd x Hv].
  - split; [| cbn; lia].
    exists r. cbn [fst snd existsb In].
    split; [reflexivity | split; [discriminate | split]];
      intros; contradiction.
  - split; [| cbn; lia].
    exists r. cbn [fst snd existsb In].
    split; [reflexivity | split; [| split]].
    + rewrite orb_false_r. intro Hfailed.
      apply (step_failed_fetch method path) in Hfailed as [e He].
      rewrite (Hr e He). apply err_is_failure_payload.
    + intros req' e [H | []]. injection H as _ ->. apply Hr. reflexivity.
    + intros cmd timeout e [H | []]. discriminate H.
  - split; [| cbn; lia].
    eexists. cbn [fst snd]. split; [reflexivity | split; [| split]].
    + cbn [existsb]. rewrite orb_false_r.
      assert (Hfetch : step_failed P (EvFetch req o) = false).
      { destruct (step_failed P (EvFetch req o)) eqn:Hf; [| reflexivity].
        apply (step_failed_fetch method path) in Hf as [e He].
        rewrite Hv in He. discriminate He. }
      rewrite Hfetch. cbn [orb step_failed].
      destruct (capture_outcome P x); [| discriminate].
      intros _. apply err_is_failure_payload.
    + intros req' e [H | [H | [H | []]]]; try discriminate H.
      injection H as _ ->. discriminate Hv.
    + intros cmd' timeout e [H | [H | [H | []]]]; try discriminate H.
      injection H as _ _ ->. reflexivity.
Qed.

(** The policy on every step gives the policy on the last. *)
Lemma boundary_final (out : (Exn + ToolResult) * list Event) :
  boundary_policy P out -> final_step_policy P out.
Proof.
  intros [r [Hr [Hany _]]]. exists r. split; [exact Hr |].
  intros before ev Hlog Hfailed. apply Hany.
  rewrite Hlog, existsb_app. cbn [existsb]. rewrite Hfailed.
  rewrite orb_true_r. reflexivity.
Qed.

(** Version 0.1.0: every tool but [ue_exec_python] makes at most one
    request. *)
Lemma V010_handle_shape (c : ToolCall) :
  (forall code, c <> call_ue_exec_python code) ->
  RunShape P (run (V010.handle P env W c)).
Proof.
  intro Hc.
  destruct c as [o p | o p v | o f ps g | o | q cn pf | | cmd | code | rs | ];
    cbn [V010.handle];
    try exact (handle_shape (call_ue_get_property o p));
    try exact (handle_shape (call_ue_set_property o p v));
    try exact (handle_shape (call_ue_call_function o f ps g));
    try exact (handle_shape (call_ue_exec_console cmd));
    try exact (handle_shape (call_ue_batch rs));
    try exact (handle_shape call_ue_remote_info);
    try (apply call_then_run; auto with quiet).
  exfalso. exact (Hc code eq_refl).
Qed.

(** Version 0.1.0, [ue_exec_python]: one request when the direct call is
    accepted, otherwise a second one, and the result follows that
    one. *)
Lemma V010_exec_python_run (code : jsstring) :
  let req1 := ue_request P env (str "PUT") (str "/remote/object/call")
                         (Some (V010.python_library_call code)) in
  let o1 := fetch W [] req1 in
  let req2 := ue_request P env (str "PUT") (str "/remote/object/call")
                         (Some (V010.python_console_call code)) in
  let o2 := fetch W [EvFetch req1 o1] req2 in
  run (V010.ue_exec_python P env W code) =
  match ue_outcome P (str "PUT") (str "/remote/object/call") o1 with
  | inr _ =>
      (inr (ok P (JString (str "Python executed via PythonScriptLibrary."
                           ++ newline
                           ++ str "Check UE Output Log for output."))),
       [EvFetch req1 o1])
  | inl _ =>
      (inr (settle
              (fun _ =>
                 ok P (JString (str "Python executed via console command."
                                ++ newline
                                ++ str "Check UE Output Log for output.")))
              (ue_outcome P (str "PUT") (str "/remote/object/call") o2)),
       [EvFetch req1 o1; EvFetch req2 o2])
  end.
Proof.
  cbv zeta. unfold V010.ue_exec_python, run, catch_err.
  unfold try_catch at 1, try_catch at 1, bind at 1.
  rewrite ue_run. cbn [app].
  destruct (ue_outcome P _ _ (fetch W [] _)) as [e1 | v1]; [| reflexivity].
  unfold bind at 1. rewrite ue_run. cbn [app].
  destruct (ue_outcome P _ _ _) as [e2 | v2]; reflexivity.
Qed.

Lemma V010_exec_python_final (code : jsstring) :
  final_step_policy P (run (V010.ue_exec_python P env W code)).
Proof.
  rewrite V010_exec_python_run.
  destruct (ue_outcome P _ _ (fetch W [] _)) as [e1 | v1] eqn:H1.
  - eexists. cbn [fst snd]. split; [reflexivity |].
    intros before ev Hlog Hfailed.
    assert (Hev : ev = EvFetch
              (ue_request P env (str "PUT") (str "/remote/object/call")
                          (Some (V010.python_console_call code)))
              (fetch W
                 [EvFetch (ue_request P env (str "PUT")
                             (str "/remote/object/call")
                             (Some (V010.python_library_call code)))
                    (fetch W [] (ue_request P env (str "PUT")
                                   (str "/remote/object/call")
                                   (Some (V010.python_library_call code))))]
                 (ue_request P env (str "PUT") (str "/remote/object/call")
                             (Some (V010.python_console_call code))))).
    { change [?a; ?b] with ([a] ++ [b]) in Hlog.
      apply app_inj_tail in Hlog. symmetry. exact (proj2 Hlog). }
    subst ev.
    apply (step_failed_fetch (str "PUT") (str "/remote/object/call"))
      in Hfailed as [e He].
    rewrite He. apply err_is_failure_payload.
  - eexists. cbn [fst snd]. split; [reflexivity |].
    intros before ev Hlog Hfailed.
    change [?a] with ([] ++ [a]) in Hlog.
    apply app_inj_tail in Hlog. destruct Hlog as [_ Hev]. subst ev.
    apply (step_failed_fetch (str "PUT") (str "/remote/object/call"))
      in Hfailed as [e He].
    rewrite H1 in He. discriminate He.
Qed.

End Boundary.

(** C8, as the two versions have it.  In version 0.2.0 every call of a
    tool returns a result and throws nothing; when a step of the run
    raised an error (the request was rejected, the body could not be
    read, the status was not ok, the ssh read failed, the file did not
    parse, the record reported an error) the result is the failure
    payload, [isError] set and a text [Error: ...], with the message of
    the transport or ssh error when that is what failed; and a run makes
    at most one request, one wait and one ssh read.  In version 0.1.0
    the same holds of every tool but [ue_exec_python]; for all ten
    tools, [ue_exec_python] included, nothing is thrown and a run whose
    last step raised an error ends in the failure payload. *)
Theorem errors_end_in_failure_payload (P : Platform) (env : ProcessEnv)
    (W : World) (c : ToolCall) :
  boundary_policy P (run (handle P env W c))
  /\ count is_fetch (snd (run (handle P env W c))) <= 1
  /\ count is_timeout (snd (run (handle P env W c))) <= 1
  /\ count is_execSync (snd (run (handle P env W c))) <= 1
  /\ ((forall code, c <> call_ue_exec_python code) ->
      boundary_policy P (run (V010.handle P env W c)))
  /\ final_step_policy P (run (V010.handle P env W c)).
Proof.
  destruct (shape_policy P _ (handle_shape P env W c))
    as [Hpolicy [Hfetch [Htimeout Hexec]]].
  repeat (split; [assumption |]).
  split.
  - intro Hc.
    exact (proj1 (shape_policy P _ (V010_handle_shape P env W c Hc))).
  - destruct c;
      try (apply boundary_final;
           refine (proj1 (shape_policy P _ (V010_handle_shape P env W _ _)));
           discriminate).
    apply V010_exec_python_final.
Qed.

(** The ssh read fails after an accepted dispatch: [ue_exec_python]
    answers with the failure payload that carries its message. *)
Lemma errors_end_in_failure_payload_witness :
  boundary_policy Sample.platform
    (run (handle Sample.platform Sample.default_env Sample.accepting
            (call_ue_exec_python (str "print('hi')"))))
  /\ fst (run (handle Sample.platform Sample.default_env Sample.accepting
                 (call_ue_exec_python (str "print('hi')")))) =
     inr {| content :=
              [{| type := str "text";
                  text := str "Error: ssh: connect refused" |}];
            isError := true |}.
Proof.
  split.
  - exact (proj1 (errors_end_in_failure_payload
                    Sample.platform Sample.default_env Sample.accepting
                    (call_ue_exec_python (str "print('hi')")))).
  - reflexivity.
Defined.

(** C8 as stated fails in version 0.1.0: when the endpoint rejects the
    direct call of [ue_exec_python] with status 500 and accepts the
    console command, the first error is dropped and the result is a
    success. *)
Lemma V010_exec_python_drops_first_error :
  let req1 :=
    ue_request Sample.platform Sample.default_env (str "PUT")
      (str "/remote/object/call")
      (Some (V010.python_library_call (str "print(1)"))) in
  let req2 :=
    ue_request Sample.platform Sample.default_env (str "PUT")
      (str "/remote/object/call")
      (Some (V010.python_console_call (str "print(1)"))) in
  let out :=
    run (V010.handle Sample.platform Sample.default_env
           Sample.first_call_fails (call_ue_exec_python (str "print(1)"))) in
  out =
    (inr {| content :=
              [{| type := str "text";
                  text := str "Python executed via console command."
                          ++ newline
                          ++ str "Check UE Output Log for output." |}];
            isError := false |},
     [EvFetch req1 (Sample.reply 500 (str "no such function"));
      EvFetch req2 (Sample.reply 200 [])])
  /\ step_failed Sample.platform
       (EvFetch req1 (Sample.reply 500 (str "no such function"))) = true
  /\ ~ boundary_policy Sample.platform out.
Proof.
  cbv zeta. split; [reflexivity | split; [reflexivity |]].
  intros [r [Hr [Hany _]]].
  cbn [V010.handle] in Hr, Hany.
  rewrite V010_exec_python_run in Hr, Hany.
  cbn in Hr, Hany.
  injection Hr as <-.
  destruct (Hany eq_refl) as [Hflag _]. discriminate Hflag.
Qed.

(* ================================================================== *)
(** ** More on the remote invoker and the capture protocol *)

(** X1. [ue] returns a value exactly when [fetch] answered, the body
    could be read and the status lies in 200..299; and in every case it
    has made exactly one request. *)
Theorem ue_returns_iff_exchange_ok (P : Platform) (env : ProcessEnv)
    (W : World) (method path : jsstring) (body : option JSValue)
    (log : list Event) :
  let req := ue_request P env method path body in
  ((exists v, fst (ue P env W method path body log) = inr v) <->
   (exists resp text,
      fetch W log req = inr resp /\ resp_text resp = inr text
      /\ (200 <= status resp <= 299)%N))
  /\ snd (ue P env W method path body log) =
       log ++ [EvFetch req (fetch W log req)].
Proof.
  cbv zeta. rewrite ue_run. cbn [fst snd]. split; [| reflexivity].
  unfold ue_outcome, resp_ok.
  destruct (fetch W log _) as [e | resp].
  - split; [intros [v H]; discriminate H |].
    intros [resp [text [H _]]]. discriminate H.
  - destruct (resp_text resp) as [e | text] eqn:Htext.
    + split; [intros [v H]; discriminate H |].
      intros [resp' [text' [H [H' _]]]]. injection H as <-.
      rewrite Htext in H'. discriminate H'.
    + destruct (N.leb_spec 200 (status resp)) as [Hlo | Hlo];
        destruct (N.leb_spec (status resp) 299) as [Hhi | Hhi]; cbn [andb].
      * split.
        -- intros _. exists resp, text. repeat split; assumption.
        -- intros _. destruct (JSON_parse P text); eexists; reflexivity.
      * split; [intros [v H]; discriminate H |].
        intros [resp' [text' [H [_ [_ Hle]]]]]. injection H as <-. lia.
      * split; [intros [v H]; discriminate H |].
        intros [resp' [text' [H [_ [Hle _]]]]]. injection H as <-. lia.
      * split; [intros [v H]; discriminate H |].
        intros [resp' [text' [H [_ [Hle _]]]]]. injection H as <-. lia.
Qed.

(** X2. The harness opens the result file under the path with every
    backslash turned into a slash, [sshRead] types it under the path
    with every slash turned into a backslash.  The path in the ssh
    command holds no slash, is as long as the path given, and turning
    its backslashes into slashes gives the path the harness wrote to:
    the two name the same file. *)
Theorem harness_and_ssh_paths_agree (env : ProcessEnv) (path : jsstring) :
  exists escaped,
    ssh_command env path =
      str "ssh -o ConnectTimeout=3 -o StrictHostKeyChecking=no "
      ++ UE_SSH_USER env ++ str "@" ++ UE_HOST env ++ str " " ++ dquote
      ++ str "type " ++ escaped ++ dquote
    /\ ~ In 47%N escaped
    /\ List.length escaped = List.length path
    /\ replace_all 92 47 escaped = replace_all 92 47 path.
Proof.
  exists (replace_all 47 92 path). split; [reflexivity |].
  unfold replace_all. split; [| split].
  - rewrite in_map_iff. intros [x [Hx _]]. cbv beta in Hx.
    destruct (N.eqb x 47) eqn:Hslash; [discriminate Hx |].
    apply N.eqb_neq in Hslash. contradiction.
  - apply length_map.
  - rewrite map_map. apply map_ext. intro x. cbv beta.
    destruct (N.eqb_spec x 47) as [-> | Hne]; reflexivity.
Qed.

(** X3. When the dispatch of the harness throws, [execPythonWithOutput]
    throws the same error at once: it neither waits nor reads the result
    file, and [ue_exec_python] answers with the failure payload of that
    error after the one request. *)
Theorem capture_stops_at_failed_dispatch (P : Platform) (env : ProcessEnv)
    (W : World) (code : jsstring) (e : Exn) :
  let req := ue_request P env (str "PUT") (str "/remote/object/call")
                        (Some (harness_call P code)) in
  fst (ue P env W (str "PUT") (str "/remote/object/call")
          (Some (harness_call P code)) []) = inl e ->
  run (execPythonWithOutput P env W code) =
    (inl e, [EvFetch req (fetch W [] req)])
  /\ run (ue_exec_python P env W code) =
       (inr (err (Caught e)), [EvFetch req (fetch W [] req)]).
Proof.
  intros req Hue. subst req. rewrite ue_run in Hue. cbn [fst] in Hue.
  match goal with |- ?A = ?B /\ _ => assert (Hrun : A = B) end.
  { rewrite execPythonWithOutput_run. rewrite Hue. reflexivity. }
  split; [exact Hrun |].
  unfold ue_exec_python, run, catch_err, try_catch, bind.
  change (execPythonWithOutput P env W code [])
    with (run (execPythonWithOutput P env W code)).
  rewrite Hrun. reflexivity.
Qed.

(** The engine answers 500: one request, no ssh. *)
Lemma capture_stops_at_failed_dispatch_witness :
  let W := Sample.constant_world (Sample.reply 500 (str "boom"))
                                 (inr (Sample.json_dump_record [] None)) in
  let req := ue_request Sample.platform Sample.default_env (str "PUT")
               (str "/remote/object/call")
               (Some (harness_call Sample.platform (str "print(1)"))) in
  let e := new_Error (str "UE PUT /remote/object/call " ++ rightwards_arrow
                      ++ str " 500: boom") in
  run (execPythonWithOutput Sample.platform Sample.default_env W
         (str "print(1)")) =
    (inl e, [EvFetch req (fetch W [] req)])
  /\ run (ue_exec_python Sample.platform Sample.default_env W
            (str "print(1)")) =
       (inr (err (Caught e)), [EvFetch req (fetch W [] req)]).
Proof.
  intros W req e.
  exact (capture_stops_at_failed_dispatch
           Sample.platform Sample.default_env W (str "print(1)") e eq_refl).
Defined.

(** X4. When the dispatch is accepted and the ssh read fails,
    [execPythonWithOutput] throws the error of the read after the three
    interactions, without a second attempt, and [ue_exec_python] answers
    with the failure payload of that error. *)
Theorem capture_fails_with_ssh_error (P : Platform) (env : ProcessEnv)
    (W : World) (code : jsstring) (v : JSValue) (e : Exn) :
  let req := ue_request P env (str "PUT") (str "/remote/object/call")
                        (Some (harness_call P code)) in
  let cmd := ssh_command env RESULT_FILE in
  let o := fetch W [] req in
  fst (ue P env W (str "PUT") (str "/remote/object/call")
          (Some (harness_call P code)) []) = inr v ->
  execSync W [EvFetch req o; EvTimeout 200] cmd 10000 = inl e ->
  run (execPythonWithOutput P env W code) =
    (inl e, [EvFetch req o; EvTimeout 200; EvExecSync cmd 10000 (inl e)])
  /\ run (ue_exec_python P env W code) =
       (inr (err (Caught e)),
        [EvFetch req o; EvTimeout 200; EvExecSync cmd 10000 (inl e)]).
Proof.
  intros req cmd o Hue Hssh. subst req cmd o.
  rewrite ue_run in Hue. cbn [fst] in Hue.
  match goal with |- ?A = ?B /\ _ => assert (Hrun : A = B) end.
  { rewrite execPythonWithOutput_run. rewrite Hue, Hssh. reflexivity. }
  split; [exact Hrun |].
  unfold ue_exec_python, run, catch_err, try_catch, bind.
  change (execPythonWithOutput P env W code [])
    with (run (execPythonWithOutput P env W code)).
  rewrite Hrun. reflexivity.
Qed.

(** Nothing listens on ssh: the payload says so. *)
Lemma capture_fails_with_ssh_error_witness :
  fst (run (ue_exec_python Sample.platform Sample.default_env
              Sample.accepting (str "print(1)"))) =
    inr (err (Caught (new_Error (str "ssh: connect refused")))).
Proof.
  exact (f_equal fst
           (proj2 (capture_fails_with_ssh_error
                     Sample.platform Sample.default_env Sample.accepting
                     (str "print(1)")
                     (JObject [(str "ReturnValue", JBool true)])
                     (new_Error (str "ssh: connect refused"))
                     eq_refl eq_refl))).
Defined.

(** X5. A result file that is not JSON makes [execPythonWithOutput]
    throw the error of [JSON.parse]; a file that holds [null] makes it
    throw the [TypeError] of reading [error] of [null].  In both cases
    no output is returned. *)
Theorem capture_rejects_unusable_file (P : Platform) (env : ProcessEnv)
    (W : World) (code cmd : jsstring) (timeout : N) (raw : jsstring) :
  In (EvExecSync cmd timeout (inr raw))
     (snd (run (execPythonWithOutput P env W code))) ->
  (forall e, JSON_parse P raw = inl e ->
             fst (run (execPythonWithOutput P env W code)) = inl e)
  /\ (JSON_parse P raw = inr JNull ->
      fst (run (execPythonWithOutput P env W code)) =
        inl (cannot_read_property P JNull (str "error"))).
Proof.
  intro Hin.
  destruct (retrieved_run P env W code cmd timeout raw Hin) as [o ->].
  cbn [fst]. unfold capture_outcome.
  split; [intros e He | intro He]; rewrite He; reflexivity.
Qed.

(** An HTML error page in the file, and a file holding [null]. *)
Lemma capture_rejects_unusable_file_witness :
  fst (run (execPythonWithOutput Sample.platform Sample.default_env
              (Sample.capturing (str "<html>")) (str "print(1)"))) =
    inl (new_Error (str "Unexpected token in JSON"))
  /\ fst (run (execPythonWithOutput Sample.platform Sample.default_env
                 (Sample.capturing (str "null")) (str "print(1)"))) =
       inl (new_Error (str "Cannot read properties of null (reading 'error')")).
Proof.
  split.
  - apply (proj1 (capture_rejects_unusable_file
                    Sample.platform Sample.default_env
                    (Sample.capturing (str "<html>")) (str "print(1)")
                    (ssh_command Sample.default_env RESULT_FILE) 10000
                    (str "<html>")
                    (or_intror (or_intror (or_introl eq_refl))))).
    reflexivity.
  - apply (proj2 (capture_rejects_unusable_file
                    Sample.platform Sample.default_env
                    (Sample.capturing (str "null")) (str "print(1)")
                    (ssh_command Sample.default_env RESULT_FILE) 10000
                    (str "null")
                    (or_intror (or_intror (or_introl eq_refl))))).
    reflexivity.
Defined.

(** X6. Whatever [execPythonWithOutput] returns is truthy: it never
    returns the empty string, [null], [undefined], [false] or zero, in
    any world. *)
Theorem capture_result_is_truthy (P : Platform) (env : ProcessEnv)
    (W : World) (code : jsstring) (v : JSValue) :
  fst (run (execPythonWithOutput P env W code)) = inr v ->
  truthy v = true /\ v <> JString [] /\ v <> JNull /\ v <> JUndefined.
Proof.
  rewrite execPythonWithOutput_run.
  destruct (ue_outcome P _ _ _) as [e | v0]; [discriminate |].
  cbn [fst]. unfold capture_outcome.
  destruct (execSync W _ _ _) as [e | raw]; [discriminate |].
  destruct (JSON_parse P raw) as [e | result]; [discriminate |].
  destruct (get_prop P result (str "error")) as [e | error]; [discriminate |].
  destruct (truthy error).
  - destruct (ToString P error); discriminate.
  - destruct (get_prop P result (str "output")) as [e | output];
      [discriminate |].
    intro H. injection H as <-.
    assert (Ht : truthy (if truthy output then output
                         else JString (str "(no output)")) = true)
      by (destruct (truthy output) eqn:Ho; [exact Ho | reflexivity]).
    split; [exact Ht |].
    repeat split; intro Heq; rewrite Heq in Ht; discriminate Ht.
Qed.

(** The record of [print('hi')]. *)
Lemma capture_result_is_truthy_witness :
  truthy (JString (str "hi" ++ newline)) = true
  /\ JString (str "hi" ++ newline) <> JString []
  /\ JString (str "hi" ++ newline) <> JNull
  /\ JString (str "hi" ++ newline) <> JUndefined.
Proof.
  exact (capture_result_is_truthy
           Sample.platform Sample.default_env
           (Sample.capturing
              (Sample.json_dump_record (str "hi" ++ newline) None))
           (str "print('hi')") (JString (str "hi" ++ newline)) eq_refl).
Defined.

(** X7. A record that lacks the [error] key counts as a run without
    error, and one that lacks the [output] key, or holds anything falsy
    under it, yields the sentinel: the empty object gives
    [(no output)], and so does [{"error": null, "output": null}]. *)
Theorem capture_missing_keys (P : Platform) (env : ProcessEnv) (W : World)
    (code cmd : jsstring) (timeout : N) (raw : jsstring)
    (props : list (jsstring * JSValue)) :
  In (EvExecSync cmd timeout (inr raw))
     (snd (run (execPythonWithOutput P env W code))) ->
  JSON_parse P raw = inr (JObject props) ->
  truthy (lookup (str "error") props) = false ->
  truthy (lookup (str "output") props) = false ->
  fst (run (execPythonWithOutput P env W code)) =
    inr (JString (str "(no output)")).
Proof.
  intros Hin Hparse Herror Houtput.
  destruct (retrieved_run P env W code cmd timeout raw Hin) as [o ->].
  cbn [fst]. unfold capture_outcome. rewrite Hparse.
  cbn [get_prop]. rewrite Herror, Houtput. reflexivity.
Qed.

(** The file holds the empty object. *)
Lemma capture_missing_keys_witness :
  fst (run (execPythonWithOutput Sample.platform Sample.default_env
              (Sample.capturing (str "{}")) (str "print(1)"))) =
    inr (JString (str "(no output)")).
Proof.
  exact (capture_missing_keys
           Sample.platform Sample.default_env
           (Sample.capturing (str "{}")) (str "print(1)")
           (ssh_command Sample.default_env RESULT_FILE) 10000 (str "{}") []
           (or_intror (or_intror (or_introl eq_refl)))
           eq_refl eq_refl eq_refl).
Defined.

(* ================================================================== *)
(** ** The summaries of version 0.2.0 *)

Section Summaries.

Variable P : Platform.

Lemma bind_lift {A B} (r : Exn + A) (k : A -> M B) (log : list Event) :
  bind (lift r) k log =
  match r with
  | inl e => (inl e, log)
  | inr a => k a log
  end.
Proof. destruct r; reflexivity. Qed.

(** [mapM] keeps the length, and what holds of every result of [f] holds
    of every entry. *)
Lemma mapM_inr {A B} (f : A -> M B) (Q : B -> Prop) (xs : list A) :
  (forall x l y l', f x l = (inr y, l') -> Q y) ->
  forall ys log log',
    mapM f xs log = (inr ys, log') ->
    List.length ys = List.length xs /\ Forall Q ys.
Proof.
  intro Hf. induction xs as [| x r IH]; intros ys log log' H.
  - injection H as <- _. split; [reflexivity | constructor].
  - cbn [mapM] in H. unfold bind at 1 in H.
    destruct (f x log) as [[e | y] l1] eqn:Hx; [discriminate H |].
    unfold bind at 1 in H.
    destruct (mapM f r l1) as [[e | ys'] l2] eqn:Hr; [discriminate H |].
    injection H as <- _.
    destruct (IH ys' l1 l2 Hr) as [Hlen Hall].
    split; [cbn; rewrite Hlen; reflexivity |].
    constructor; [exact (Hf x log y l1 Hx) | exact Hall].
Qed.

(** What [array_map] returns is an array as long as the one it was
    given. *)
Lemma array_map_inr (name : jsstring) (v : JSValue)
    (f : JSValue -> M JSValue) (Q : JSValue -> Prop) :
  (forall x l y l', f x l = (inr y, l') -> Q y) ->
  forall w log log',
    array_map P name v f log = (inr w, log') ->
    exists ys,
      w = JArray ys
      /\ get_length v = JNumber (number_of_nat (List.length ys))
      /\ Forall Q ys.
Proof.
  intros Hf w log log' H.
  destruct v; cbn [array_map] in H; try discriminate H.
  unfold bind at 1 in H.
  destruct (mapM f xs log) as [[e | ys] l1] eqn:Hm; [discriminate H |].
  injection H as <- _.
  destruct (mapM_inr f Q xs Hf ys log l1 Hm) as [Hlen Hall].
  exists ys. cbn [get_length]. rewrite Hlen. auto.
Qed.

Lemma describe_property_inr (p : JSValue) (l : list Event) (y : JSValue)
    (l' : list Event) :
  describe_property P p l = (inr y, l') -> is_property_summary y.
Proof.
  unfold describe_property. rewrite bind_lift.
  destruct (get_prop P p (str "Name")) as [e | name]; [discriminate |].
  rewrite bind_lift.
  destruct (get_prop P p (str "Type")) as [e | ty]; [discriminate |].
  rewrite bind_lift.
  destruct (get_prop P p (str "Description")) as [e | d]; [discriminate |].
  intro H. injection H as <- _. exists name, ty.
  destruct (truthy d) eqn:Hd; [right; exists d; auto | left; reflexivity].
Qed.

Lemma describe_function_inr (f : JSValue) (l : list Event) (y : JSValue)
    (l' : list Event) :
  describe_function P f l = (inr y, l') -> is_function_summary y.
Proof.
  unfold describe_function. rewrite bind_lift.
  destruct (get_prop P f (str "Name")) as [e | name]; [discriminate |].
  rewrite bind_lift.
  destruct (get_prop P f (str "Description")) as [e | d]; [discriminate |].
  intro H. injection H as <- _. exists name.
  destruct (truthy d) eqn:Hd; [right; exists d; auto | left; reflexivity].
Qed.

Lemma compact_asset_inr (a : JSValue) (l : list Event) (y : JSValue)
    (l' : list Event) :
  compact_asset P a l = (inr y, l') -> is_asset_summary y.
Proof.
  unfold compact_asset. rewrite bind_lift.
  destruct (get_prop P a (str "Name")) as [e | name]; [discriminate |].
  rewrite bind_lift.
  destruct (get_prop P a (str "Class")) as [e | cls]; [discriminate |].
  rewrite bind_lift.
  destruct (get_prop P a (str "Path")) as [e | path]; [discriminate |].
  intro H. injection H as <- _. exists name, cls, path. reflexivity.
Qed.

End Summaries.

(** X8. Every success payload of [ue_describe_object] is the rendering
    of an object with the keys [Class], [Name], [PropertyCount],
    [Properties], [FunctionCount], [Functions], in which the two counts
    are the lengths of the two lists, every property entry holds [Name],
    [Type] and a [Description] only when the engine gave a truthy one,
    and every function entry holds [Name] and such a [Description]:
    whatever else the engine sent is dropped. *)
Theorem describe_object_summary_shape (P : Platform) (env : ProcessEnv)
    (W : World) (object_path : jsstring) (r : ToolResult) :
  fst (run (ue_describe_object P env W object_path)) = inr r ->
  isError r = false ->
  exists cls name props funcs,
    r = ok P (JObject
                [(str "Class", cls);
                 (str "Name", name);
                 (str "PropertyCount",
                  JNumber (number_of_nat (List.length props)));
                 (str "Properties", JArray props);
                 (str "FunctionCount",
                  JNumber (number_of_nat (List.length funcs)));
                 (str "Functions", JArray funcs)])
    /\ Forall is_property_summary props
    /\ Forall is_function_summary funcs.
Proof.
  unfold ue_describe_object, run, catch_err, try_catch.
  unfold bind at 1. rewrite ue_run. cbn [app].
  destruct (ue_outcome P _ _ _) as [e | raw];
    [intros H; injection H as <-; discriminate |].
  rewrite bind_lift.
  destruct (get_prop P raw (str "Properties")) as [e | p0];
    [intros H; injection H as <-; discriminate |].
  rewrite bind_lift.
  destruct (get_prop P raw (str "Functions")) as [e | f0];
    [intros H; injection H as <-; discriminate |].
  rewrite bind_lift.
  destruct (get_prop P raw (str "Class")) as [e | cls];
    [intros H; injection H as <-; discriminate |].
  rewrite bind_lift.
  destruct (get_prop P raw (str "Name")) as [e | name];
    [intros H; injection H as <-; discriminate |].
  unfold bind at 1.
  destruct (array_map P (str "props") _ _ _) as [[e | properties] l1] eqn:Hp;
    [intros H; injection H as <-; discriminate |].
  unfold bind at 1.
  destruct (array_map P (str "funcs") _ _ _) as [[e | functions] l2] eqn:Hf;
    [intros H; injection H as <-; discriminate |].
  destruct (array_map_inr P _ _ _ is_property_summary
              (describe_property_inr P) _ _ _ Hp)
    as [props [-> [Hplen Hpall]]].
  destruct (array_map_inr P _ _ _ is_function_summary
              (describe_function_inr P) _ _ _ Hf)
    as [funcs [-> [Hflen Hfall]]].
  rewrite Hplen, Hflen.
  intros H _. injection H as <-.
  exists cls, name, props, funcs. auto.
Qed.

(** The engine describes the cube: two properties, one function. *)
Lemma describe_object_summary_shape_witness :
  exists cls name props funcs,
    ok Sample.platform
       (JObject
          [(str "Class", JString (str "/Script/Engine.StaticMeshActor"));
           (str "Name", JString (str "Cube"));
           (str "PropertyCount", JNumber 2);
           (str "Properties",
            JArray
              [JObject [(str "Name", JString (str "bHidden"));
                        (str "Type", JString (str "bool"));
                        (str "Description", JString (str "Hides the actor"))];
               JObject [(str "Name", JString (str "Tags"));
                        (str "Type", JString (str "TArray<FName>"))]]);
           (str "FunctionCount", JNumber 1);
           (str "Functions",
            JArray [JObject [(str "Name", JString (str "K2_DestroyActor"))]])])
    = ok Sample.platform
         (JObject
            [(str "Class", cls);
             (str "Name", name);
             (str "PropertyCount",
              JNumber (number_of_nat (List.length props)));
             (str "Properties", JArray props);
             (str "FunctionCount",
              JNumber (number_of_nat (List.length funcs)));
             (str "Functions", JArray funcs)])
    /\ Forall is_property_summary props
    /\ Forall is_function_summary funcs.
Proof.
  exact (describe_object_summary_shape
           Sample.platform Sample.default_env
           (Sample.constant_world (Sample.reply 200 Sample.describe_answer)
                                  (inr []))
           (str "/Game/Maps/Main.Main:PersistentLevel.Cube")
           _ eq_refl eq_refl).
Defined.

(** X9. When the engine's description is an object without [Properties]
    and without [Functions] (or with [null] there), [ue_describe_object]
    does not fail: it reports two empty lists and the counts 0. *)
Theorem describe_object_missing_lists (P : Platform) (env : ProcessEnv)
    (W : World) (object_path : jsstring) (resp : Response)
    (text : jsstring) (props : list (jsstring * JSValue)) :
  fetch W [] (ue_request P env (str "PUT") (str "/remote/object/describe")
                (Some (JObject [(str "objectPath", JString object_path)])))
    = inr resp ->
  resp_ok resp = true ->
  resp_text resp = inr text ->
  JSON_parse P text = inr (JObject props) ->
  nullish_or (lookup (str "Properties") props) (JArray []) = JArray [] ->
  nullish_or (lookup (str "Functions") props) (JArray []) = JArray [] ->
  fst (run (ue_describe_object P env W object_path)) =
    inr (ok P (JObject
                 [(str "Class", lookup (str "Class") props);
                  (str "Name", lookup (str "Name") props);
                  (str "PropertyCount", JNumber (number_of_nat 0));
                  (str "Properties", JArray []);
                  (str "FunctionCount", JNumber (number_of_nat 0));
                  (str "Functions", JArray [])])).
Proof.
  intros Hfetch Hok Htext Hparse Hp Hf.
  unfold ue_describe_object, run, catch_err, try_catch.
  unfold bind at 1. rewrite ue_run. cbn [app].
  rewrite Hfetch. unfold ue_outcome. rewrite Htext, Hok, Hparse.
  cbn [get_prop]. rewrite !bind_lift. rewrite Hp, Hf. reflexivity.
Qed.

(** The engine answers with a name and a class only. *)
Lemma describe_object_missing_lists_witness :
  let text :=
    JSON_stringify Sample.platform
      (JObject [(str "Name", JString (str "Cube"));
                (str "Class", JString (str "Actor"))]) 0 in
  fst (run (ue_describe_object Sample.platform Sample.default_env
              (Sample.constant_world (Sample.reply 200 text) (inr []))
              (str "/Game/Cube"))) =
    inr (ok Sample.platform
           (JObject
              [(str "Class", JString (str "Actor"));
               (str "Name", JString (str "Cube"));
               (str "PropertyCount", JNumber (number_of_nat 0));
               (str "Properties", JArray []);
               (str "FunctionCount", JNumber (number_of_nat 0));
               (str "Functions", JArray [])])).
Proof.
  intro text.
  exact (describe_object_missing_lists
           Sample.platform Sample.default_env
           (Sample.constant_world (Sample.reply 200 text) (inr []))
           (str "/Game/Cube")
           {| status := 200; resp_text := inr text |} text
           [(str "Name", JString (str "Cube"));
            (str "Class", JString (str "Actor"))]
           eq_refl eq_refl eq_refl eq_refl eq_refl eq_refl).
Defined.

(** X10. The two versions differ on an empty answer.  When the engine
    accepts the describe call with an empty body, [ue] returns [null];
    version 0.1.0 hands that to [ok], version 0.2.0 reads [Properties]
    of it and answers with the failure payload of the [TypeError].  The
    same holds of [ue_search_assets] and its [Assets]. *)
Theorem empty_answer_fails_only_in_v020 (P : Platform) (env : ProcessEnv)
    (W : World) (resp : Response) :
  JSON_parse_rejects_empty P ->
  (forall log req, fetch W log req = inr resp) ->
  resp_ok resp = true ->
  resp_text resp = inr [] ->
  (forall object_path,
     fst (run (V010.ue_describe_object P env W object_path)) = inr (ok P JNull)
     /\ fst (run (ue_describe_object P env W object_path)) =
          inr (err (Caught (cannot_read_property P JNull (str "Properties")))))
  /\ (forall query class_names path_filter,
        fst (run (V010.ue_search_assets P env W query class_names path_filter))
          = inr (ok P JNull)
        /\ fst (run (ue_search_assets P env W query class_names path_filter))
           = inr (err (Caught (cannot_read_property P JNull (str "Assets"))))).
Proof.
  intros [e0 Hempty] Hfetch Hok Htext.
  split; [intro object_path | intros query class_names path_filter]; split.
  - unfold V010.ue_describe_object. rewrite one_call_run. cbn [fst].
    rewrite Hfetch. unfold ue_outcome. rewrite Htext, Hok, Hempty. reflexivity.
  - unfold ue_describe_object, run, catch_err, try_catch.
    unfold bind at 1. rewrite ue_run.
    rewrite Hfetch. unfold ue_outcome. rewrite Htext, Hok, Hempty.
    reflexivity.
  - unfold V010.ue_search_assets. rewrite one_call_run. cbn [fst].
    rewrite Hfetch. unfold ue_outcome. rewrite Htext, Hok, Hempty. reflexivity.
  - unfold ue_search_assets, run, catch_err, try_catch.
    unfold bind at 1. rewrite ue_run.
    rewrite Hfetch. unfold ue_outcome. rewrite Htext, Hok, Hempty.
    reflexivity.
Qed.

(** A 204 without body. *)
Lemma empty_answer_fails_only_in_v020_witness :
  let W := Sample.constant_world (Sample.reply 204 []) (inr []) in
  fst (run (V010.ue_describe_object Sample.platform Sample.default_env W
              (str "/Game/Cube"))) = inr (ok Sample.platform JNull)
  /\ fst (run (ue_describe_object Sample.platform Sample.default_env W
                 (str "/Game/Cube"))) =
       inr (err (Caught (new_Error
         (str "Cannot read properties of null (reading 'Properties')")))).
Proof.
  intro W.
  exact (proj1 (empty_answer_fails_only_in_v020
                  Sample.platform Sample.default_env W
                  {| status := 204; resp_text := inr [] |}
                  (ex_intro _ _ eq_refl) (fun _ _ => eq_refl) eq_refl eq_refl)
           (str "/Game/Cube")).
Defined.

(** X11. Every success payload of [ue_search_assets] is the rendering of
    an object with [Count] and [Assets], where [Count] is the length of
    [Assets] and every entry holds exactly [Name], [Class] and [Path]:
    the metadata the engine sends with each asset is dropped. *)
Theorem search_assets_summary_shape (P : Platform) (env : ProcessEnv)
    (W : World) (query : jsstring) (class_names path_filter : option jsstring)
    (r : ToolResult) :
  fst (run (ue_search_assets P env W query class_names path_filter)) = inr r ->
  isError r = false ->
  exists assets,
    r = ok P (JObject
                [(str "Count", JNumber (number_of_nat (List.length assets)));
                 (str "Assets", JArray assets)])
    /\ Forall is_asset_summary assets.
Proof.
  unfold ue_search_assets, run, catch_err, try_catch.
  unfold bind at 1. rewrite ue_run. cbn [app].
  destruct (ue_outcome P _ _ _) as [e | raw];
    [intros H; injection H as <-; discriminate |].
  rewrite bind_lift.
  destruct (get_prop P raw (str "Assets")) as [e | a0];
    [intros H; injection H as <-; discriminate |].
  unfold bind at 1.
  destruct (array_map P (str "assets") _ _ _) as [[e | compact] l1] eqn:Ha;
    [intros H; injection H as <-; discriminate |].
  destruct (array_map_inr P _ _ _ is_asset_summary
              (compact_asset_inr P) _ _ _ Ha)
    as [assets [-> [_ Hall]]].
  intros H _. injection H as <-.
  exists assets. auto.
Qed.

(** One asset found, with a metadata blob that does not come back. *)
Lemma search_assets_summary_shape_witness :
  let text :=
    JSON_stringify Sample.platform
      (JObject
         [(str "Assets",
           JArray
             [JObject [(str "Name", JString (str "SM_Cube"));
                       (str "Class", JString (str "StaticMesh"));
                       (str "Path", JString (str "/Game/Meshes/SM_Cube"));
                       (str "Metadata", JObject [(str "Tags", JArray [])])]])])
      0 in
  exists assets,
    ok Sample.platform
       (JObject
          [(str "Count", JNumber 1);
           (str "Assets",
            JArray
              [JObject [(str "Name", JString (str "SM_Cube"));
                        (str "Class", JString (str "StaticMesh"));
                        (str "Path", JString (str "/Game/Meshes/SM_Cube"))]])])
    = ok Sample.platform
         (JObject
            [(str "Count", JNumber (number_of_nat (List.length assets)));
             (str "Assets", JArray assets)])
    /\ Forall is_asset_summary assets.
Proof.
  intro text.
  exact (search_assets_summary_shape
           Sample.platform Sample.default_env
           (Sample.constant_world (Sample.reply 200 text) (inr []))
           (str "Cube") None None _ eq_refl eq_refl).
Defined.

(* ================================================================== *)
(** ** The search filter *)

Lemma trim_start_head (s : jsstring) (c : N) (r : jsstring) :
  trim_start s = c :: r -> is_white_space c = false.
Proof.
  induction s as [| x s IH]; cbn [trim_start]; [discriminate |].
  destruct (is_white_space x) eqn:Hx; [exact IH |].
  intro H. injection H as <- _. exact Hx.
Qed.

Lemma trim_start_suffix (s : jsstring) :
  exists ws, s = ws ++ trim_start s.
Proof.
  induction s as [| x s [ws IH]]; [exists []; reflexivity |].
  cbn [trim_start]. destruct (is_white_space x).
  - exists (x :: ws). cbn. rewrite <- IH. reflexivity.
  - exists []. reflexivity.
Qed.

Lemma trim_trimmed (s : jsstring) : trimmed (trim s).
Proof.
  unfold trim. split.
  - intros c r H.
    apply (f_equal (@rev N)) in H. rewrite rev_involutive in H.
    destruct (trim_start_suffix (rev (trim_start s))) as [ws Hws].
    rewrite H in Hws. apply (f_equal (@rev N)) in Hws.
    rewrite rev_involutive, rev_app_distr, rev_involutive in Hws.
    cbn [app] in Hws.
    exact (trim_start_head s c _ Hws).
  - intros r c H.
    apply (f_equal (@rev N)) in H.
    rewrite rev_involutive, rev_app_distr in H. cbn [rev app] in H.
    exact (trim_start_head _ c _ H).
Qed.

Lemma trim_incl (s : jsstring) (c : N) : In c (trim s) -> In c s.
Proof.
  unfold trim. intro H. apply in_rev in H.
  destruct (trim_start_suffix (rev (trim_start s))) as [ws Hws].
  assert (H1 : In c (rev (trim_start s)))
    by (rewrite Hws; apply in_or_app; right; exact H).
  apply in_rev in H1.
  destruct (trim_start_suffix s) as [ws' Hws'].
  rewrite Hws'. apply in_or_app. right. exact H1.
Qed.

Lemma split_length (sep : N) (s : jsstring) :
  List.length (split sep s) = S (count_occ N.eq_dec s sep).
Proof.
  induction s as [| x s IH]; [reflexivity |].
  cbn [split count_occ].
  destruct (N.eqb_spec x sep) as [-> | Hne].
  - destruct (N.eq_dec sep sep); [| contradiction].
    cbn [List.length]. rewrite IH. reflexivity.
  - destruct (N.eq_dec x sep); [contradiction |].
    destruct (split sep s) as [| h t]; [discriminate IH |].
    exact IH.
Qed.

Lemma split_no_separator (sep : N) (s : jsstring) :
  Forall (fun piece => ~ In sep piece) (split sep s).
Proof.
  induction s as [| x s IH]; cbn [split].
  - constructor; [intros [] | constructor].
  - destruct (N.eqb_spec x sep) as [-> | Hne].
    + constructor; [intros [] | exact IH].
    + destruct (split sep s) as [| h t].
      * constructor; [| constructor]. intros [H | []]. contradiction.
      * inversion IH as [| ? ? Hh Ht]; subst.
        constructor; [| exact Ht].
        intros [H | H]; [contradiction | exact (Hh H)].
Qed.

(** X12. For a non-empty [class_names], the filter of [ue_search_assets]
    starts with [classNames]: one name for each comma-separated piece,
    so one more than there are commas, each without white space at
    either end and without a comma.  A piece that is empty or blank
    still gives a name, the empty one. *)
Theorem search_filter_class_names (class_names : jsstring)
    (path_filter : option jsstring) :
  class_names <> [] ->
  exists names rest,
    search_filter (Some class_names) path_filter =
      JObject ((str "classNames", JArray (map JString names)) :: rest)
    /\ List.length names = S (count_occ N.eq_dec class_names 44%N)
    /\ Forall (fun name => trimmed name /\ ~ In 44%N name) names
    /\ rest = match search_filter None path_filter with
              | JObject ps => ps
              | _ => []
              end.
Proof.
  intro Hne.
  exists (map trim (split 44 class_names)). eexists.
  split; [| split; [| split; [| reflexivity]]].
  - unfold search_filter.
    destruct class_names as [| c s]; [contradiction |].
    cbn [is_empty app]. rewrite map_map. reflexivity.
  - rewrite length_map. apply split_length.
  - rewrite Forall_map.
    eapply Forall_impl; [| apply split_no_separator].
    intros piece Hpiece. split; [apply trim_trimmed |].
    intro H. apply Hpiece. exact (trim_incl piece 44%N H).
Qed.

(** Two classes, a blank around the second, and a trailing comma. *)
Lemma search_filter_class_names_witness :
  exists names rest,
    search_filter (Some (str "Blueprint, StaticMesh ,")) (Some (str "/Game")) =
      JObject ((str "classNames", JArray (map JString names)) :: rest)
    /\ names = [str "Blueprint"; str "StaticMesh"; []]
    /\ rest = [(str "paths", JArray [JString (str "/Game")])].
Proof.
  destruct (search_filter_class_names
              (str "Blueprint, StaticMesh ,") (Some (str "/Game")))
    as [names [rest [Heq [_ [_ Hrest]]]]]; [discriminate |].
  exists names, rest. split; [exact Heq |].
  cbn in Heq. injection Heq as Hnames _.
  split; [| exact Hrest].
  clear Hrest. revert Hnames.
  destruct names as [| n1 [| n2 [| n3 [| n4 names]]]]; try discriminate.
  intro H. injection H as <- <- <-. reflexivity.
Defined.

(* ================================================================== *)
(** ** What the tools send, and where *)

Section Interactions.

Variable P : Platform.
Variable env : ProcessEnv.
Variable W : World.

Lemma ue_outcome_inr (method path : jsstring) (o : Exn + Response)
    (v : JSValue) :
  ue_outcome P method path o = inr v ->
  exists resp text,
    o = inr resp /\ resp_ok resp = true /\ resp_text resp = inr text.
Proof.
  unfold ue_outcome. destruct o as [e | resp]; [discriminate |].
  destruct (resp_text resp) as [e | text] eqn:Htext; [discriminate |].
  destruct (resp_ok resp) eqn:Hok; [| discriminate].
  intros _. exists resp, text. auto.
Qed.

(** The log of a handler that awaits [ue] once and then computes. *)
Lemma call_then_trace (method path : jsstring) (body : option JSValue)
    (k : JSValue -> M ToolResult) :
  (forall v, quiet (k v)) ->
  snd (run (catch_err (bind (ue P env W method path body) k))) =
  [EvFetch (ue_request P env method path body)
           (fetch W [] (ue_request P env method path body))].
Proof.
  intro Hk. unfold run, catch_err, try_catch, bind.
  rewrite ue_run. cbn [app].
  destruct (ue_outcome P method path _) as [e | v]; [reflexivity |].
  specialize (Hk v [EvFetch (ue_request P env method path body)
                      (fetch W [] (ue_request P env method path body))]).
  destruct (k v _) as [[e | r] log']; cbn [snd] in *; exact Hk.
Qed.

Lemma put_is_expected (path : jsstring) (payload : JSValue) :
  expected_request P env
    (ue_request P env (str "PUT") (str "/remote/" ++ path) (Some payload)).
Proof.
  split; [exists path; reflexivity | split; [reflexivity |]].
  left. split; [reflexivity | discriminate].
Qed.

(** The log of the capture tools. *)
Lemma capture_trace (code : jsstring) :
  let req := ue_request P env (str "PUT") (str "/remote/object/call")
                        (Some (harness_call P code)) in
  let tr := snd (run (catch_err
                        (bind (execPythonWithOutput P env W code)
                              (fun output => ret (ok P output))))) in
  tr = [EvFetch req (fetch W [] req)]
  \/ exists resp text x,
       fetch W [] req = inr resp /\ resp_ok resp = true
       /\ resp_text resp = inr text
       /\ tr = [EvFetch req (inr resp); EvTimeout 200;
                EvExecSync (ssh_command env RESULT_FILE) 10000 x].
Proof.
  cbv zeta. unfold run, catch_err, try_catch, bind.
  change (execPythonWithOutput P env W code [])
    with (run (execPythonWithOutput P env W code)).
  rewrite execPythonWithOutput_run.
  destruct (ue_outcome P _ _ _) as [e | v] eqn:Hout; [left; reflexivity |].
  right. destruct (ue_outcome_inr _ _ _ _ Hout) as [resp [text [Ho [Hok Ht]]]].
  exists resp, text. eexists.
  split; [exact Ho | split; [exact Hok | split; [exact Ht |]]].
  rewrite Ho. cbn [app].
  destruct (capture_outcome P _); reflexivity.
Qed.

(** The log of every call of a 0.2.0 tool: nothing, one expected
    request, or, for the two capture tools, the capture sequence after
    an accepted dispatch. *)
Lemma handle_trace (c : ToolCall) :
  let tr := snd (run (handle P env W c)) in
  tr = []
  \/ (exists req, expected_request P env req
                  /\ tr = [EvFetch req (fetch W [] req)])
  \/ ((c = call_ue_list_actors \/ exists code, c = call_ue_exec_python code)
      /\ exists req resp text x,
           expected_request P env req
           /\ resp_ok resp = true /\ resp_text resp = inr text
           /\ tr = [EvFetch req (inr resp); EvTimeout 200;
                    EvExecSync (ssh_command env RESULT_FILE) 10000 x]).
Proof.
  assert (Hone : forall (Q : Prop) path payload k,
            (forall v, quiet (k v)) ->
            let tr := snd (run (catch_err
                       (bind (ue P env W (str "PUT") (str "/remote/" ++ path)
                                 (Some payload)) k))) in
            tr = [] \/
            (exists req, expected_request P env req
                         /\ tr = [EvFetch req (fetch W [] req)]) \/ Q).
  { intros Q path payload k Hk tr. right. left.
    eexists. split; [apply (put_is_expected path payload) |].
    apply call_then_trace. exact Hk. }
  assert (Hcap : forall (Q : Prop) code,
            Q ->
            let tr := snd (run (catch_err
                       (bind (execPythonWithOutput P env W code)
                             (fun output => ret (ok P output))))) in
            tr = [] \/
            (exists req, expected_request P env req
                         /\ tr = [EvFetch req (fetch W [] req)])
            \/ (Q /\ exists req resp text x,
                 expected_request P env req
                 /\ resp_ok resp = true /\ resp_text resp = inr text
                 /\ tr = [EvFetch req (inr resp); EvTimeout 200;
                          EvExecSync (ssh_command env RESULT_FILE) 10000 x])).
  { intros Q code HQ tr.
    destruct (capture_trace code) as [H | [resp [text [x [_ [Hok [Ht H]]]]]]].
    - right. left. eexists. split; [| exact H].
      apply (put_is_expected (str "object/call")).
    - right. right. split; [exact HQ |]. eexists. exists resp, text, x.
      split; [apply (put_is_expected (str "object/call")) |].
      split; [exact Hok | split; [exact Ht | exact H]]. }
  destruct c as [o p | o p v | o f ps g | o | q cn pf | | cmd | code | rs | ];
    cbn [handle]; cbv zeta.
  - exact (Hone _ (str "object/property") _ _ (fun r => quiet_ret (ok P r))).
  - unfold ue_set_property.
    replace (try_catch (lift (JSON_parse P v)) (fun _ => ret (JString v)))
      with (ret (A := JSValue)
              (match JSON_parse P v with
               | inr parsed => parsed
               | inl _ => JString v
               end))
      by (destruct (JSON_parse P v); reflexivity).
    exact (Hone _ (str "object/property")
             (JObject
                [(str "objectPath", JString o);
                 (str "access", JString (str "WRITE_TRANSACTION_ACCESS"));
                 (str "propertyName", JString p);
                 (str "propertyValue",
                  match JSON_parse P v with
                  | inr parsed => parsed
                  | inl _ => JString v
                  end)])
             _ (fun r => quiet_ret (ok P r))).
  - unfold ue_call_function, call_function_request.
    destruct ps as [s |];
      [destruct (is_empty s);
       [| destruct (JSON_parse P s); [left; reflexivity |]] |];
      exact (Hone _ (str "object/call") _ _ (fun r => quiet_ret (ok P r))).
  - apply (Hone _ (str "object/describe")).
    intro raw.
    pose proof (quiet_describe_property P).
    pose proof (quiet_describe_function P).
    pose proof (quiet_array_map P).
    auto 20 with quiet.
  - apply (Hone _ (str "search/assets")).
    intro raw.
    pose proof (quiet_compact_asset P). pose proof (quiet_array_map P).
    auto 20 with quiet.
  - apply (Hcap _ list_actors_code). left. reflexivity.
  - exact (Hone _ (str "object/call") _ _ (fun _ => quiet_ret _)).
  - apply (Hcap _ code). right. exists code. reflexivity.
  - unfold ue_batch. destruct (JSON_parse P rs); [left; reflexivity |].
    exact (Hone _ (str "batch") _ _ (fun r => quiet_ret (ok P r))).
  - right. left. eexists. split; [| apply call_then_trace; auto with quiet].
    split; [exists (str "info"); reflexivity | split; [reflexivity |]].
    right. split; reflexivity.
Qed.

End Interactions.

(** The log of every call of a 0.1.0 tool holds expected requests
    only. *)
Lemma V010_handle_trace (P : Platform) (env : ProcessEnv) (W : World)
    (c : ToolCall) :
  Forall (fun ev => expected_event P env ev /\ is_fetch ev = true)
         (snd (run (V010.handle P env W c))).
Proof.
  assert (Hshared : forall c',
            (c' <> call_ue_list_actors) ->
            (forall code, c' <> call_ue_exec_python code) ->
            Forall (fun ev => expected_event P env ev /\ is_fetch ev = true)
                   (snd (run (handle P env W c')))).
  { intros c' Hl Hp.
    destruct (handle_trace P env W c')
      as [H | [[req [Hreq H]] | [[Hc | [code Hc]] _]]].
    - rewrite H. constructor.
    - rewrite H. constructor; [| constructor]. split; [exact Hreq | reflexivity].
    - contradiction.
    - exfalso. exact (Hp code Hc). }
  assert (Hone : forall path payload,
            Forall (fun ev => expected_event P env ev /\ is_fetch ev = true)
              (snd (run (catch_err
                 (bind (ue P env W (str "PUT") (str "/remote/" ++ path)
                           (Some payload))
                       (fun r => ret (ok P r))))))).
  { intros path payload. rewrite call_then_trace by auto with quiet.
    constructor; [| constructor].
    split; [apply put_is_expected | reflexivity]. }
  destruct c as [o p | o p v | o f ps g | o | q cn pf | | cmd | code | rs | ];
    cbn [V010.handle].
  - apply (Hshared (call_ue_get_property o p)); discriminate.
  - apply (Hshared (call_ue_set_property o p v)); discriminate.
  - apply (Hshared (call_ue_call_function o f ps g)); discriminate.
  - exact (Hone (str "object/describe") _).
  - exact (Hone (str "search/assets") _).
  - exact (Hone (str "object/call") _).
  - apply (Hshared (call_ue_exec_console cmd)); discriminate.
  - rewrite V010_exec_python_run.
    destruct (ue_outcome P _ _ _); cbn [snd];
      repeat (constructor;
              [split; [apply (put_is_expected P env (str "object/call"))
                      | reflexivity] |]);
      constructor.
  - apply (Hshared (call_ue_batch rs)); discriminate.
  - apply (Hshared call_ue_remote_info); discriminate.
Qed.

(** X13. Whatever the arguments of a tool and whatever the engine
    answers, every request a tool makes goes to a path under [/remote/]
    of the configured endpoint, with the JSON content type, as a PUT
    with a body or a GET without one; the only wait is the one of 200
    milliseconds; and the only command ever run is the one ssh command
    that types the result file, with a timeout of ten seconds: no
    argument of a tool reaches the command line.  Version 0.1.0 makes
    such requests and nothing else. *)
Theorem every_interaction_is_expected (P : Platform) (env : ProcessEnv)
    (W : World) (c : ToolCall) :
  Forall (expected_event P env) (snd (run (handle P env W c)))
  /\ Forall (fun ev => expected_event P env ev /\ is_fetch ev = true)
            (snd (run (V010.handle P env W c))).
Proof.
  split; [| apply V010_handle_trace].
  destruct (handle_trace P env W c)
    as [H | [[req [Hreq H]] | [_ [req [resp [text [x [Hreq [_ [_ H]]]]]]]]]];
    rewrite H.
  - constructor.
  - constructor; [exact Hreq | constructor].
  - constructor; [exact Hreq |].
    constructor; [reflexivity |].
    constructor; [split; reflexivity | constructor].
Qed.

(** X14. An ssh read happens only in a call of [ue_list_actors] or
    [ue_exec_python], and only as the third interaction, after the
    engine answered the dispatch with an ok status and a readable body
    and after the wait. *)
Theorem ssh_only_after_accepted_dispatch (P : Platform) (env : ProcessEnv)
    (W : World) (c : ToolCall) (cmd : jsstring) (timeout : N)
    (o : Exn + jsstring) :
  In (EvExecSync cmd timeout o) (snd (run (handle P env W c))) ->
  (c = call_ue_list_actors \/ exists code, c = call_ue_exec_python code)
  /\ exists req resp text,
       snd (run (handle P env W c)) =
         [EvFetch req (inr resp); EvTimeout 200; EvExecSync cmd timeout o]
       /\ resp_ok resp = true /\ resp_text resp = inr text.
Proof.
  destruct (handle_trace P env W c)
    as [H | [[req [Hreq H]] | [Hc [req [resp [text [x [_ [Hok [Ht H]]]]]]]]]];
    rewrite H; cbn [In].
  - intros [].
  - intros [Hin | []]. discriminate Hin.
  - intros [Hin | [Hin | [Hin | []]]]; try discriminate Hin.
    injection Hin as <- <- <-.
    split; [exact Hc |]. exists req, resp, text. auto.
Qed.

(** A capture that went through. *)
Lemma ssh_only_after_accepted_dispatch_witness :
  let raw := Sample.json_dump_record (str "hi" ++ newline) None in
  let c := call_ue_exec_python (str "print('hi')") in
  (c = call_ue_list_actors \/ exists code, c = call_ue_exec_python code)
  /\ exists req resp text,
       snd (run (handle Sample.platform Sample.default_env
                   (Sample.capturing raw) c)) =
         [EvFetch req (inr resp); EvTimeout 200;
          EvExecSync (ssh_command Sample.default_env RESULT_FILE) 10000
                     (inr raw)]
       /\ resp_ok resp = true /\ resp_text resp = inr text.
Proof.
  intros raw c.
  exact (ssh_only_after_accepted_dispatch
           Sample.platform Sample.default_env (Sample.capturing raw) c
           (ssh_command Sample.default_env RESULT_FILE) 10000 (inr raw)
           (or_intror (or_intror (or_introl eq_refl)))).
Defined.

(* ================================================================== *)
(** ** More on single tools *)

(** X15. Version 0.1.0, [ue_exec_python]: a failure payload means that
    two requests were made, the direct call and then the console
    command [py <code>], that both were refused, and that the payload
    carries the error of the second; the error of the first is not
    reported. *)
Theorem V010_exec_python_reports_last_error (P : Platform)
    (env : ProcessEnv) (W : World) (code : jsstring) (r : ToolResult) :
  fst (run (V010.ue_exec_python P env W code)) = inr r ->
  isError r = true ->
  exists o1 o2 e2,
    snd (run (V010.ue_exec_python P env W code)) =
      [EvFetch (ue_request P env (str "PUT") (str "/remote/object/call")
                  (Some (V010.python_library_call code))) o1;
       EvFetch (ue_request P env (str "PUT") (str "/remote/object/call")
                  (Some (V010.python_console_call code))) o2]
    /\ step_failed P (EvFetch (ue_request P env (str "PUT")
                                 (str "/remote/object/call")
                                 (Some (V010.python_library_call code))) o1)
       = true
    /\ ue_outcome P (str "PUT") (str "/remote/object/call") o2 = inl e2
    /\ r = err (Caught e2).
Proof.
  rewrite V010_exec_python_run.
  destruct (ue_outcome P _ _ (fetch W [] _)) as [e1 | v1] eqn:H1.
  - cbn [fst snd].
    destruct (ue_outcome P _ _ (fetch W [_] _)) as [e2 | v2] eqn:H2;
      cbn [settle]; intros H Hflag; injection H as <-;
      [| discriminate Hflag].
    eexists. eexists. exists e2.
    split; [reflexivity | split; [| split; [exact H2 | reflexivity]]].
    apply (step_failed_fetch P (str "PUT") (str "/remote/object/call")).
    exists e1. exact H1.
  - cbn [fst]. intros H Hflag. injection H as <-. discriminate Hflag.
Qed.

(** The endpoint refuses everything with status 500. *)
Lemma V010_exec_python_reports_last_error_witness :
  exists o1 o2 e2,
    snd (run (V010.ue_exec_python Sample.platform Sample.default_env
                (Sample.constant_world (Sample.reply 500 (str "no")) (inr []))
                (str "print(1)"))) =
      [EvFetch (ue_request Sample.platform Sample.default_env (str "PUT")
                  (str "/remote/object/call")
                  (Some (V010.python_library_call (str "print(1)")))) o1;
       EvFetch (ue_request Sample.platform Sample.default_env (str "PUT")
                  (str "/remote/object/call")
                  (Some (V010.python_console_call (str "print(1)")))) o2]
    /\ step_failed Sample.platform
         (EvFetch (ue_request Sample.platform Sample.default_env (str "PUT")
                     (str "/remote/object/call")
                     (Some (V010.python_library_call (str "print(1)")))) o1)
       = true
    /\ ue_outcome Sample.platform (str "PUT") (str "/remote/object/call") o2
       = inl e2
    /\ err (Caught (new_Error (str "UE PUT /remote/object/call "
                               ++ rightwards_arrow ++ str " 500: no")))
       = err (Caught e2).
Proof.
  exact (V010_exec_python_reports_last_error
           Sample.platform Sample.default_env
           (Sample.constant_world (Sample.reply 500 (str "no")) (inr []))
           (str "print(1)") _ eq_refl eq_refl).
Defined.

(** X16. [ue_exec_console] is fire-and-forget: whenever the engine
    accepts the call, whatever it answers, the payload is the fixed text
    that quotes the command and points to the Output Log; nothing of
    the answer is in it. *)
Theorem exec_console_discards_answer (P : Platform) (env : ProcessEnv)
    (W : World) (command : jsstring) (v : JSValue) :
  fst (ue P env W (str "PUT") (str "/remote/object/call")
          (Some (JObject
             [(str "objectPath",
               JString (str "/Script/Engine.Default__KismetSystemLibrary"));
              (str "functionName", JString (str "ExecuteConsoleCommand"));
              (str "parameters",
               JObject
                 [(str "WorldContextObject",
                   JObject [(str "objectPath", JString [])]);
                  (str "Command", JString command)])])) []) = inr v ->
  fst (run (ue_exec_console P env W command)) =
    inr {| content :=
             [{| type := str "text";
                 text := str "Console command sent: " ++ command ++ newline
                         ++ str "Check UE Output Log for results." |}];
           isError := false |}.
Proof.
  rewrite ue_run. cbn [fst]. intro Hue.
  unfold ue_exec_console. rewrite one_call_run. cbn [fst].
  rewrite Hue. reflexivity.
Qed.

(** [stat fps], answered with an empty object. *)
Lemma exec_console_discards_answer_witness :
  fst (run (ue_exec_console Sample.platform Sample.default_env
              (Sample.constant_world (Sample.reply 200 (str "{}")) (inr []))
              (str "stat fps"))) =
    inr {| content :=
             [{| type := str "text";
                 text := str "Console command sent: " ++ str "stat fps"
                         ++ newline
                         ++ str "Check UE Output Log for results." |}];
           isError := false |}.
Proof.
  exact (exec_console_discards_answer
           Sample.platform Sample.default_env
           (Sample.constant_world (Sample.reply 200 (str "{}")) (inr []))
           (str "stat fps") (JObject []) eq_refl).
Defined.

(** X17. [ue_call_function] sends [parameters: {}] both when the
    parameters are absent and when they are the empty string, and sends
    the parsed value, whatever its shape, when they are a non-empty
    string that parses; [generateTransaction] is the flag it was
    given. *)
Theorem call_function_parameters (P : Platform) (env : ProcessEnv)
    (W : World) (object_path function_name : jsstring)
    (generate_transaction : bool) :
  let request params :=
    ue_request P env (str "PUT") (str "/remote/object/call")
      (Some (JObject
         [(str "objectPath", JString object_path);
          (str "functionName", JString function_name);
          (str "parameters", params);
          (str "generateTransaction", JBool generate_transaction)])) in
  let sent params :=
    [EvFetch (request params) (fetch W [] (request params))] in
  snd (run (ue_call_function P env W object_path function_name None
                             generate_transaction)) = sent (JObject [])
  /\ snd (run (ue_call_function P env W object_path function_name (Some [])
                                generate_transaction)) = sent (JObject [])
  /\ forall parameters params,
       parameters <> [] ->
       JSON_parse P parameters = inr params ->
       snd (run (ue_call_function P env W object_path function_name
                                  (Some parameters) generate_transaction))
       = sent params.
Proof.
  cbv zeta. unfold ue_call_function, call_function_request.
  split; [| split].
  - rewrite one_call_run. reflexivity.
  - cbn [is_empty]. rewrite one_call_run. reflexivity.
  - intros parameters params Hne Hparse.
    destruct parameters as [| c s]; [contradiction |].
    cbn [is_empty]. rewrite Hparse. rewrite one_call_run. reflexivity.
Qed.

(** A bare number as parameters is sent as that number. *)
Lemma call_function_parameters_witness :
  let request :=
    ue_request Sample.platform Sample.default_env (str "PUT")
      (str "/remote/object/call")
      (Some (JObject
         [(str "objectPath", JString (str "/Game/Cube"));
          (str "functionName", JString (str "SetActorScale"));
          (str "parameters", JNumber 2);
          (str "generateTransaction", JBool false)])) in
  snd (run (ue_call_function Sample.platform Sample.default_env
              Sample.accepting (str "/Game/Cube") (str "SetActorScale")
              (Some (str "2")) false)) =
    [EvFetch request (fetch Sample.accepting [] request)].
Proof.
  intro request.
  apply (proj2 (proj2 (call_function_parameters
                         Sample.platform Sample.default_env Sample.accepting
                         (str "/Game/Cube") (str "SetActorScale") false))
           (str "2") (JNumber 2)).
  - discriminate.
  - reflexivity.
Defined.

(** X18. When the [value] given to [ue_set_property] is JSON, the
    property value sent is the parsed value, not the text: [42] goes out
    as a number and [true] as a boolean, in the one PUT with
    [WRITE_TRANSACTION_ACCESS], and the result is what that request
    yields. *)
Theorem ue_set_property_sends_parsed_value (P : Platform) (env : ProcessEnv)
    (W : World) (object_path property_name value : jsstring)
    (parsed : JSValue) :
  JSON_parse P value = inr parsed ->
  let req :=
    ue_request P env (str "PUT") (str "/remote/object/property")
      (Some (JObject
         [(str "objectPath", JString object_path);
          (str "access", JString (str "WRITE_TRANSACTION_ACCESS"));
          (str "propertyName", JString property_name);
          (str "propertyValue", parsed)])) in
  run (ue_set_property P env W object_path property_name value) =
    (inr (settle (ok P)
            (ue_outcome P (str "PUT") (str "/remote/object/property")
                        (fetch W [] req))),
     [EvFetch req (fetch W [] req)]).
Proof.
  intros Hparse req. subst req.
  unfold ue_set_property, run, catch_err.
  unfold try_catch at 1, bind at 1, try_catch at 1, lift at 1.
  rewrite Hparse. unfold ret at 1.
  unfold bind at 1. rewrite ue_run. cbn [app].
  destruct (ue_outcome P _ _ _); reflexivity.
Qed.

(** Hiding an actor: [true] is sent as the boolean. *)
Lemma ue_set_property_sends_parsed_value_witness :
  let req :=
    ue_request Sample.platform Sample.default_env (str "PUT")
      (str "/remote/object/property")
      (Some (JObject
         [(str "objectPath", JString (str "/Game/Cube"));
          (str "access", JString (str "WRITE_TRANSACTION_ACCESS"));
          (str "propertyName", JString (str "bHidden"));
          (str "propertyValue", JBool true)])) in
  run (ue_set_property Sample.platform Sample.default_env Sample.accepting
         (str "/Game/Cube") (str "bHidden") (str "true")) =
    (inr (settle (ok Sample.platform)
            (ue_outcome Sample.platform (str "PUT")
                        (str "/remote/object/property")
                        (fetch Sample.accepting [] req))),
     [EvFetch req (fetch Sample.accepting [] req)]).
Proof.
  exact (ue_set_property_sends_parsed_value
           Sample.platform Sample.default_env Sample.accepting
           (str "/Game/Cube") (str "bHidden") (str "true") (JBool true)
           eq_refl).
Defined.

(* ================================================================== *)
(** ** The harness *)

(** X19. For every code and every platform the harness is the fixed
    script, from [import sys, io, json, traceback] to the closing
    parenthesis of [json.dump], with the code in it as the one JSON
    string literal handed to [exec] and the result path as the one
    handed to [open].  The [trim] of the template only takes off its
    outer line feeds: it never reaches into the code. *)
Theorem wrapper_text (P : Platform) (code : jsstring) :
  wrapper P code =
  str "import sys, io, json, traceback" ++ newline
  ++ str "_nora_stdout = sys.stdout" ++ newline
  ++ str "_nora_buf = io.StringIO()" ++ newline
  ++ str "sys.stdout = _nora_buf" ++ newline
  ++ str "_nora_err = None" ++ newline
  ++ str "try:" ++ newline
  ++ str "    exec(" ++ JSON_stringify P (JString code) 0 ++ str ")" ++ newline
  ++ str "except Exception as e:" ++ newline
  ++ str "    _nora_err = traceback.format_exc()" ++ newline
  ++ str "finally:" ++ newline
  ++ str "    sys.stdout = _nora_stdout" ++ newline
  ++ str "    _nora_out = _nora_buf.getvalue()" ++ newline
  ++ str "    with open("
  ++ JSON_stringify P (JString (str "C:/tmp/nora_mcp_result.json")) 0
  ++ str ", 'w', encoding='utf-8') as f:" ++ newline
  ++ str "        json.dump({" ++ dquote ++ str "output" ++ dquote
  ++ str ": _nora_out, " ++ dquote ++ str "error" ++ dquote
  ++ str ": _nora_err}, f)".
Proof.
  unfold wrapper.
  change (replace_all 92 47 RESULT_FILE)
    with (str "C:/tmp/nora_mcp_result.json").
  match goal with
  | |- trim (newline ++ ?body) = ?text =>
      replace body with (text ++ newline)
        by (repeat rewrite <- app_assoc; reflexivity);
      set (t := text)
  end.
  eapply (trim_framed t 105%N 41%N).
  - subst t. reflexivity.
  - subst t.
    change (str ": _nora_err}, f)") with (str ": _nora_err}, f" ++ [41%N]).
    repeat rewrite app_assoc. reflexivity.
  - reflexivity.
  - reflexivity.
Qed.
